(** * Virtual machine scale set field mappers

    A shallow embedding of
    [azurerm/internal/services/compute/virtual_machine_scale_set.go]:
    the resource-identifier parser, the schema tables and the
    expand / flatten functions of the additional capabilities, the OS disk,
    the source image reference and the upgrade policy.

    Conventions of the embedding:
    - a Go [interface{}] holding a configuration value is a [value], the nil
      interface being [VNil]; [map[string]interface{}] is a
      [gmap string value];
    - a Go pointer to a [T] is an [option T], [nil] being [None];
    - a Go [int] is a [Z]; the conversion [int32(x)] wraps around;
    - a function body runs in the [flow] monad, which has the two ways a Go
      body stops early: a [return] statement and a run-time panic (index out
      of range, failed type assertion, nil dereference);
    - a function returning a pointer together with an [error] returns the
      pair [option T * option error]. *)

From stdpp Require Import base option list strings gmap.
From Stdlib Require Import ZArith Lia.

#[local] Set Warnings "-register-all".
Local Open Scope Z_scope.

(** ** Configuration values *)

Inductive value : Type :=
  | VNil
  | VBool (b : bool)
  | VInt (n : Z)
  | VString (s : string)
  | VList (l : list value)
  | VMap (m : gmap string value).

(** ** Control flow of a function body *)

Inductive panic : Set :=
  | IndexOutOfRange
  | InterfaceConversion
  | NilDereference.

(** What a call gives back to its caller. *)
Inductive outcome (R : Type) : Type :=
  | Returns (r : R)
  | Panics (p : panic).
Arguments Returns {R} r.
Arguments Panics {R} p.

(** A statement of a body whose function returns an [R]: it falls through
    with an [A], executes [return r], or panics. *)
Inductive flow (R A : Type) : Type :=
  | Next (a : A)
  | Return (r : R)
  | Panic (p : panic).
Arguments Next {R A} a.
Arguments Return {R A} r.
Arguments Panic {R A} p.

#[global] Instance flow_ret {R} : MRet (flow R) := fun _ a => Next a.
#[global] Instance flow_bind {R} : MBind (flow R) := fun _ _ k x =>
  match x with
  | Next a => k a
  | Return r => Return r
  | Panic p => Panic p
  end.

(** A body whose last statement is a [return]. *)
Definition run {R} (body : flow R R) : outcome R :=
  match body with
  | Next r | Return r => Returns r
  | Panic p => Panics p
  end.

(** [len(l)] *)
Definition len {A} (l : list A) : Z := Z.of_nat (length l).

(** [l[0]] *)
Definition index0 {R} (l : list value) : flow R value :=
  match l with
  | x :: _ => Next x
  | [] => Panic IndexOutOfRange
  end.

(** [raw[k]]: a key that is not in the map reads as the nil interface. *)
Definition at_key (raw : gmap string value) (k : string) : value :=
  default VNil (raw !! k).

(** The type assertions [x.(bool)], [x.(int)], [x.(string)],
    [x.([]interface{})] and [x.(map[string]interface{})]. *)
Definition as_bool {R} (x : value) : flow R bool :=
  match x with VBool b => Next b | _ => Panic InterfaceConversion end.
Definition as_int {R} (x : value) : flow R Z :=
  match x with VInt n => Next n | _ => Panic InterfaceConversion end.
Definition as_string {R} (x : value) : flow R string :=
  match x with VString s => Next s | _ => Panic InterfaceConversion end.
Definition as_list {R} (x : value) : flow R (list value) :=
  match x with VList l => Next l | _ => Panic InterfaceConversion end.
Definition as_map {R} (x : value) : flow R (gmap string value) :=
  match x with VMap m => Next m | _ => Panic InterfaceConversion end.

(** [int32(x)] of an [int]: the low 32 bits, read as a signed number. *)
Definition int32 (x : Z) : Z := (x + 2 ^ 31) mod 2 ^ 32 - 2 ^ 31.

(** [int(x)] of an [int32]: every [int32] is an [int]. *)
Definition int (x : Z) : Z := x.

(** ** Package fmt *)

(** [fmt.Errorf(format, args...)], kept as the format and its arguments. *)
Inductive error : Type :=
  | Errorf (format : string) (args : list fmt_arg)
with fmt_arg : Type :=
  | ArgString (s : string)
  | ArgError (e : error).

Definition format_of (e : error) : string :=
  match e with Errorf f _ => f end.

(** [strings.Contains(s, sub)], used to say that a message names a label. *)
Fixpoint Contains (s sub : string) : bool :=
  String.prefix sub s ||
  match s with
  | EmptyString => false
  | String _ s' => Contains s' sub
  end.

(** ** Package utils: the boxing helpers *)

Module utils.
(** Modelled from the spec: the primitive boxing helper [utils.Bool] of
    package [utils], which returns a pointer to a copy of its argument. *)
Definition Bool (input : bool) : option bool := Some input.

(** Modelled from the spec: the primitive boxing helper [utils.Int32] of
    package [utils], which returns a pointer to a copy of its argument. *)
Definition Int32 (input : Z) : option Z := Some input.

(** Modelled from the spec: the primitive boxing helper [utils.String] of
    package [utils], which returns a pointer to a copy of its argument. *)
Definition String (input : string) : option string := Some input.
End utils.

(** ** Package compute of the cloud SDK

    The request / response structs, with the fields this file reads or
    writes; every other field of the SDK structs keeps its zero value and is
    left out. The enum types are string types. *)

Module compute.
Definition CachingTypes := string.
Definition CachingTypesNone : CachingTypes := "None".
Definition CachingTypesReadOnly : CachingTypes := "ReadOnly".
Definition CachingTypesReadWrite : CachingTypes := "ReadWrite".

Definition StorageAccountTypes := string.
Definition StorageAccountTypesPremiumLRS : StorageAccountTypes := "Premium_LRS".
Definition StorageAccountTypesStandardLRS : StorageAccountTypes := "Standard_LRS".
Definition StorageAccountTypesStandardSSDLRS : StorageAccountTypes := "StandardSSD_LRS".

Definition DiffDiskOptions := string.
Definition Local : DiffDiskOptions := "Local".

Definition DiskCreateOptionTypes := string.
Definition DiskCreateOptionTypesFromImage : DiskCreateOptionTypes := "FromImage".

Definition OperatingSystemTypes := string.
Definition Linux : OperatingSystemTypes := "Linux".
Definition Windows : OperatingSystemTypes := "Windows".

Definition UpgradeMode := string.
Definition Automatic : UpgradeMode := "Automatic".
Definition Manual : UpgradeMode := "Manual".
Definition Rolling : UpgradeMode := "Rolling".

Record AdditionalCapabilities := {
  UltraSSDEnabled : option bool
}.

Record DiffDiskSettings := {
  Option : DiffDiskOptions
}.

Record VirtualMachineScaleSetManagedDiskParameters := {
  StorageAccountType : StorageAccountTypes
}.

(** The fields [DiffDiskSettings'], [AutomaticOSUpgradePolicy'] and
    [RollingUpgradePolicy'] are the Go fields of the same name without the
    prime, which is there because the field and its type share a name. *)
Record VirtualMachineScaleSetOSDisk := {
  Caching : CachingTypes;
  WriteAcceleratorEnabled : option bool;
  CreateOption : DiskCreateOptionTypes;
  DiffDiskSettings' : option DiffDiskSettings;
  DiskSizeGB : option Z;
  OsType : OperatingSystemTypes;
  ManagedDisk : option VirtualMachineScaleSetManagedDiskParameters
}.

Record ImageReference := {
  ID : option string;
  Publisher : option string;
  Offer : option string;
  Sku : option string;
  Version : option string
}.

Record AutomaticOSUpgradePolicy := {
  DisableAutomaticRollback : option bool;
  EnableAutomaticOSUpgrade : option bool
}.

Record RollingUpgradePolicy := {
  MaxBatchInstancePercent : option Z;
  MaxUnhealthyInstancePercent : option Z;
  MaxUnhealthyUpgradedInstancePercent : option Z;
  PauseTimeBetweenBatches : option string
}.

Record UpgradePolicy := {
  Mode : UpgradeMode;
  AutomaticOSUpgradePolicy' : option AutomaticOSUpgradePolicy;
  RollingUpgradePolicy' : option RollingUpgradePolicy
}.
End compute.

(** Assignments to a field of a struct that was built before. *)
Definition set_DiskSizeGB (v : option Z)
    (d : compute.VirtualMachineScaleSetOSDisk) : compute.VirtualMachineScaleSetOSDisk :=
  {| compute.Caching := compute.Caching d;
     compute.WriteAcceleratorEnabled := compute.WriteAcceleratorEnabled d;
     compute.CreateOption := compute.CreateOption d;
     compute.DiffDiskSettings' := compute.DiffDiskSettings' d;
     compute.DiskSizeGB := v;
     compute.OsType := compute.OsType d;
     compute.ManagedDisk := compute.ManagedDisk d |}.

Definition set_DiffDiskSettings (v : option compute.DiffDiskSettings)
    (d : compute.VirtualMachineScaleSetOSDisk) : compute.VirtualMachineScaleSetOSDisk :=
  {| compute.Caching := compute.Caching d;
     compute.WriteAcceleratorEnabled := compute.WriteAcceleratorEnabled d;
     compute.CreateOption := compute.CreateOption d;
     compute.DiffDiskSettings' := v;
     compute.DiskSizeGB := compute.DiskSizeGB d;
     compute.OsType := compute.OsType d;
     compute.ManagedDisk := compute.ManagedDisk d |}.

Definition set_AutomaticOSUpgradePolicy (v : option compute.AutomaticOSUpgradePolicy)
    (p : compute.UpgradePolicy) : compute.UpgradePolicy :=
  {| compute.Mode := compute.Mode p;
     compute.AutomaticOSUpgradePolicy' := v;
     compute.RollingUpgradePolicy' := compute.RollingUpgradePolicy' p |}.

Definition set_RollingUpgradePolicy (v : option compute.RollingUpgradePolicy)
    (p : compute.UpgradePolicy) : compute.UpgradePolicy :=
  {| compute.Mode := compute.Mode p;
     compute.AutomaticOSUpgradePolicy' := compute.AutomaticOSUpgradePolicy' p;
     compute.RollingUpgradePolicy' := v |}.

(** ** Package validation of the plugin framework

    The two validators the schema tables use. A validator accepts or rejects
    a configuration value; [IntBetween] has inclusive bounds, and
    [StringInSlice] with [ignoreCase = false] compares exactly. *)

Module validation.
Definition IntBetween (min max : Z) (i : value) : bool :=
  match i with
  | VInt v => bool_decide (min <= v) && bool_decide (v <= max)
  | _ => false
  end.

Definition StringInSlice (valid : list string) (ignoreCase : bool) (i : value) : bool :=
  match i with
  | VString v => bool_decide (v ∈ valid)
  | _ => false
  end.
End validation.

(** ** Package schema of the plugin framework

    A schema table is data: the type of the option, whether it is required,
    its default, its validator and, for a nested block, the table of the
    block. The Go struct literals leave the fields they do not mention at
    their zero value, which [new] followed by the setters reproduces. *)

Module schema.
Inductive ValueType : Set := TypeBool | TypeInt | TypeString | TypeList.

Inductive Schema : Type :=
  Build_Schema (Type_ : ValueType) (Optional Required : bool) (MaxItems : nat)
               (Default : option value) (ValidateFunc : option (value -> bool))
               (ConflictsWith : list string) (Elem : option Resource)
with Resource : Type :=
  Build_Resource (Schema_ : list (string * Schema)).

Definition new (t : ValueType) : Schema :=
  Build_Schema t false false 0 None None [] None.

Definition optional (s : Schema) : Schema :=
  match s with Build_Schema t _ r n d v c e => Build_Schema t true r n d v c e end.
Definition required (s : Schema) : Schema :=
  match s with Build_Schema t o _ n d v c e => Build_Schema t o true n d v c e end.
Definition max_items (n : nat) (s : Schema) : Schema :=
  match s with Build_Schema t o r _ d v c e => Build_Schema t o r n d v c e end.
Definition default_ (d : value) (s : Schema) : Schema :=
  match s with Build_Schema t o r n _ v c e => Build_Schema t o r n (Some d) v c e end.
Definition validate_func (v : value -> bool) (s : Schema) : Schema :=
  match s with Build_Schema t o r n d _ c e => Build_Schema t o r n d (Some v) c e end.
Definition conflicts_with (c : list string) (s : Schema) : Schema :=
  match s with Build_Schema t o r n d v _ e => Build_Schema t o r n d v c e end.
Definition elem (fields : list (string * Schema)) (s : Schema) : Schema :=
  match s with
  | Build_Schema t o r n d v c _ => Build_Schema t o r n d v c (Some (Build_Resource fields))
  end.

(** The contract between the framework and the mappers: the value the
    framework hands over for an option conforms to the option's schema.
    It has the declared type and passes the validator; a list respects
    [MaxItems] and is non-empty when required; each item of a list of
    blocks is a map that holds exactly the options of the block's table,
    each conforming in turn (the framework fills an option that was left
    out with its default or its zero value, so every key is there). *)
Fixpoint conforms (s : Schema) (v : value) {struct s} : bool :=
  match s with
  | Build_Schema t _ req maxi _ vf _ el =>
      match vf with Some f => f v | None => true end &&
      match t, v with
      | TypeBool, VBool _ => true
      | TypeInt, VInt _ => true
      | TypeString, VString _ => true
      | TypeList, VList l =>
          (if req then bool_decide (l ≠ []) else true) &&
          (if maxi is O then true else bool_decide (length l ≤ maxi)%nat) &&
          match el with
          | None => true
          | Some (Build_Resource fields) =>
              forallb (fun item =>
                match item with
                | VMap m =>
                    bool_decide (dom m = list_to_set fields.*1) &&
                    (fix each (fs : list (string * Schema)) : bool :=
                       match fs with
                       | [] => true
                       | (k, s') :: fs' =>
                           match m !! k with
                           | Some v' => conforms s' v'
                           | None => false
                           end && each fs'
                       end) fields
                | _ => false
                end) l
          end
      | _, _ => false
      end
  end.
End schema.

Notation "s & f" := (f s) (at level 41, left associativity, only parsing).

(** ** The resource identifier *)

Section ResourceID.
(** [azure.ResourceID] and [azure.ParseAzureResourceID] belong to package
    [helpers/azure], outside this file: the identifier parser is stated
    over any such helper. [Path] is the map of the path segments. *)
Variable ResourceID : Type.
Variable Path : ResourceID -> gmap string string.
Variable ParseAzureResourceID : string -> option ResourceID * option error.

Record VirtualMachineScaleSetResourceID := {
  Base : ResourceID;
  Name : string
}.

Definition ParseVirtualMachineScaleSetResourceID (input : string)
    : outcome (option VirtualMachineScaleSetResourceID * option error) :=
  run (
    let '(id, err) := ParseAzureResourceID input in
    _ ← (if err is Some err
         then Return (None, Some (Errorf
                "[ERROR] Unable to parse Virtual Machine Scale Set ID %q: %+v"
                [ArgString input; ArgError err]))
         else Next ());
    id ← (if id is Some id then Next id else Panic NilDereference);
    let networkSecurityGroup :=
      {| Base := id;
         Name := default "" (Path id !! "virtualMachineScaleSets") |} in
    _ ← (if bool_decide (Name networkSecurityGroup = "")
         then Return (None, Some (Errorf
                "ID was missing the `virtualMachineScaleSets` element" []))
         else Next ());
    Return (Some networkSecurityGroup, None)).
End ResourceID.

Arguments Base {ResourceID} _.
Arguments Name {ResourceID} _.

(** ** Additional capabilities *)

Definition VirtualMachineScaleSetAdditionalCapabilitiesSchema : schema.Schema :=
  schema.new schema.TypeList & schema.optional & schema.max_items 1 & schema.elem [
    ("ultra_ssd_enabled",
      schema.new schema.TypeBool & schema.optional & schema.default_ (VBool false))
  ].

Definition ExpandVirtualMachineScaleSetAdditionalCapabilities (input : list value)
    : outcome (option compute.AdditionalCapabilities) :=
  run (
    let capabilities := {| compute.UltraSSDEnabled := None |} in
    capabilities ← (if bool_decide (len input > 0) then
        x ← index0 input;
        raw ← as_map x;
        b ← as_bool (at_key raw "ultra_ssd_enabled");
        Next {| compute.UltraSSDEnabled := utils.Bool b |}
      else Next capabilities);
    Return (Some capabilities)).

Definition FlattenVirtualMachineScaleSetAdditionalCapabilities
    (input : option compute.AdditionalCapabilities) : list value :=
  match input with
  | None => []
  | Some input =>
      let ultraSsdEnabled := false in
      let ultraSsdEnabled :=
        if compute.UltraSSDEnabled input is Some b then b else ultraSsdEnabled in
      [VMap {[ "ultra_ssd_enabled" := VBool ultraSsdEnabled ]}]
  end.

(** ** OS disk *)

Definition VirtualMachineScaleSetOSDiskSchema : schema.Schema :=
  schema.new schema.TypeList & schema.required & schema.max_items 1 & schema.elem [
    ("caching",
      schema.new schema.TypeString & schema.required &
      schema.validate_func (validation.StringInSlice [
        compute.CachingTypesNone;
        compute.CachingTypesReadOnly;
        compute.CachingTypesReadWrite
      ] false));
    ("storage_account_type",
      schema.new schema.TypeString & schema.required &
      schema.validate_func (validation.StringInSlice [
        compute.StorageAccountTypesPremiumLRS;
        compute.StorageAccountTypesStandardLRS;
        compute.StorageAccountTypesStandardSSDLRS
      ] false));
    ("diff_disk_settings",
      schema.new schema.TypeList & schema.optional & schema.max_items 1 & schema.elem [
        ("option",
          schema.new schema.TypeString & schema.required &
          schema.validate_func (validation.StringInSlice [compute.Local] false))
      ]);
    ("disk_size_gb",
      schema.new schema.TypeInt & schema.optional &
      schema.validate_func (validation.IntBetween 0 1023));
    ("write_accelerator_enabled",
      schema.new schema.TypeBool & schema.optional & schema.default_ (VBool false))
  ].

Definition ExpandVirtualMachineScaleSetOSDisk (input : list value)
    (osType : compute.OperatingSystemTypes)
    : outcome (option compute.VirtualMachineScaleSetOSDisk) :=
  run (
    x ← index0 input;
    raw ← as_map x;
    caching ← as_string (at_key raw "caching");
    storageAccountType ← as_string (at_key raw "storage_account_type");
    writeAcceleratorEnabled ← as_bool (at_key raw "write_accelerator_enabled");
    let disk :=
      {| compute.Caching := caching;
         compute.ManagedDisk :=
           Some {| compute.StorageAccountType := storageAccountType |};
         compute.WriteAcceleratorEnabled := utils.Bool writeAcceleratorEnabled;
         compute.CreateOption := compute.DiskCreateOptionTypesFromImage;
         compute.OsType := osType;
         compute.DiskSizeGB := None;
         compute.DiffDiskSettings' := None |} in
    osDiskSize ← as_int (at_key raw "disk_size_gb");
    let disk :=
      if bool_decide (osDiskSize > 0)
      then set_DiskSizeGB (utils.Int32 (int32 osDiskSize)) disk
      else disk in
    diffDiskSettingsRaw ← as_list (at_key raw "diff_disk_settings");
    disk ← (if bool_decide (len diffDiskSettingsRaw > 0) then
        y ← index0 diffDiskSettingsRaw;
        diffDiskRaw ← as_map y;
        option ← as_string (at_key diffDiskRaw "option");
        Next (set_DiffDiskSettings (Some {| compute.Option := option |}) disk)
      else Next disk);
    Return (Some disk)).

Definition FlattenVirtualMachineScaleSetOSDisk
    (input : option compute.VirtualMachineScaleSetOSDisk) : list value :=
  match input with
  | None => []
  | Some input =>
      let diffDataSettings := [] in
      let diffDataSettings :=
        if compute.DiffDiskSettings' input is Some s
        then diffDataSettings ++ [VMap {[ "option" := VString (compute.Option s) ]}]
        else diffDataSettings in
      let diskSizeGb := 0 in
      let diskSizeGb :=
        match compute.DiskSizeGB input with
        | Some v => if bool_decide (v ≠ 0) then int v else diskSizeGb
        | None => diskSizeGb
        end in
      let storageAccountType := "" in
      let storageAccountType :=
        if compute.ManagedDisk input is Some m
        then compute.StorageAccountType m
        else storageAccountType in
      let writeAcceleratorEnabled := false in
      let writeAcceleratorEnabled :=
        if compute.WriteAcceleratorEnabled input is Some b
        then b
        else writeAcceleratorEnabled in
      [VMap {[
         "caching" := VString (compute.Caching input);
         "disk_size_gb" := VInt diskSizeGb;
         "diff_data_settings" := VList diffDataSettings;
         "storage_account_type" := VString storageAccountType;
         "write_accelerator_enabled" := VBool writeAcceleratorEnabled
       ]}]
  end.

(** ** Source image reference *)

Definition VirtualMachineScaleSetSourceImageReferenceSchema : schema.Schema :=
  schema.new schema.TypeList & schema.optional & schema.max_items 1 & schema.elem [
    ("publisher",
      schema.new schema.TypeString & schema.required &
      schema.conflicts_with ["source_image_id"]);
    ("offer",
      schema.new schema.TypeString & schema.required &
      schema.conflicts_with ["source_image_id"]);
    ("sku",
      schema.new schema.TypeString & schema.required &
      schema.conflicts_with ["source_image_id"]);
    ("version",
      schema.new schema.TypeString & schema.required &
      schema.conflicts_with ["source_image_id"])
  ].

Definition ExpandVirtualMachineScaleSetSourceImageReference (input : list value)
    : outcome (option compute.ImageReference) :=
  run (
    _ ← (if bool_decide (len input = 0) then Return None else Next ());
    x ← index0 input;
    raw ← as_map x;
    publisher ← as_string (at_key raw "publisher");
    offer ← as_string (at_key raw "offer");
    sku ← as_string (at_key raw "sku");
    version ← as_string (at_key raw "version");
    Return (Some {|
      compute.ID := None;
      compute.Publisher := utils.String publisher;
      compute.Offer := utils.String offer;
      compute.Sku := utils.String sku;
      compute.Version := utils.String version |})).

Definition FlattenVirtualMachineScaleSetSourceImageReference
    (input : option compute.ImageReference) : list value :=
  match input with
  | None => []
  | Some input =>
      if compute.ID input is Some _ then [] else
      let '(publisher, offer, sku, version) := ("", "", "", "") in
      let publisher := if compute.Publisher input is Some s then s else publisher in
      let offer := if compute.Offer input is Some s then s else offer in
      let sku := if compute.Sku input is Some s then s else sku in
      let version := if compute.Version input is Some s then s else version in
      [VMap {[
         "publisher" := VString publisher;
         "offer" := VString offer;
         "sku" := VString sku;
         "version" := VString version
       ]}]
  end.

(** ** Upgrade policy *)

Definition VirtualMachineScaleSetUpgradePolicySchema : schema.Schema :=
  schema.new schema.TypeList & schema.required & schema.max_items 1 & schema.elem [
    ("mode",
      schema.new schema.TypeString & schema.required &
      schema.validate_func (validation.StringInSlice [
        compute.Automatic;
        compute.Manual;
        compute.Rolling
      ] false));
    ("automatic_os_upgrade_policy",
      schema.new schema.TypeList & schema.optional & schema.max_items 1 & schema.elem [
        ("disable_automatic_rollback", schema.new schema.TypeBool & schema.required);
        ("enable_automatic_os_upgrade", schema.new schema.TypeBool & schema.required)
      ]);
    ("rolling_upgrade_policy",
      schema.new schema.TypeList & schema.optional & schema.max_items 1 & schema.elem [
        ("max_batch_instance_percent", schema.new schema.TypeInt & schema.required);
        ("max_unhealthy_instance_percent", schema.new schema.TypeInt & schema.required);
        ("max_unhealthy_upgraded_instance_percent",
          schema.new schema.TypeInt & schema.required);
        ("pause_time_between_batches", schema.new schema.TypeString & schema.required)
      ])
  ].

(** The four messages of [ExpandVirtualMachineScaleSetUpgradePolicy], in the
    order of the guards that return them. *)
Definition ErrAutomaticBlockWithoutMode : error :=
  Errorf "A `automatic_os_upgrade_policy` block cannot be specified when `mode` is not set to `Automatic`" [].
Definition ErrRollingBlockWithoutMode : error :=
  Errorf "A `rolling_upgrade_policy` block cannot be specified when `mode` is not set to `Rolling`" [].
Definition ErrAutomaticModeWithoutBlock : error :=
  Errorf "A `automatic_os_upgrade_policy` block must be specified when `mode` is set to `Automatic`" [].
Definition ErrRollingModeWithoutBlock : error :=
  Errorf "A `rolling_upgrade_policy` block must be specified when `mode` is set to `Rolling`" [].

Definition ExpandVirtualMachineScaleSetUpgradePolicy (input : list value)
    : outcome (option compute.UpgradePolicy * option error) :=
  run (
    x ← index0 input;
    raw ← as_map x;
    automaticPoliciesRaw ← as_list (at_key raw "automatic_os_upgrade_policy");
    rollingPoliciesRaw ← as_list (at_key raw "rolling_upgrade_policy");
    mode ← as_string (at_key raw "mode");
    let policy :=
      {| compute.Mode := mode;
         compute.AutomaticOSUpgradePolicy' := None;
         compute.RollingUpgradePolicy' := None |} in
    policy ← (if bool_decide (len automaticPoliciesRaw > 0) then
        _ ← (if bool_decide (compute.Mode policy ≠ compute.Automatic)
             then Return (None, Some ErrAutomaticBlockWithoutMode)
             else Next ());
        y ← index0 automaticPoliciesRaw;
        automaticRaw ← as_map y;
        disableAutomaticRollback ← as_bool (at_key automaticRaw "disable_automatic_rollback");
        enableAutomaticOSUpgrade ← as_bool (at_key automaticRaw "enable_automatic_os_upgrade");
        Next (set_AutomaticOSUpgradePolicy (Some {|
          compute.DisableAutomaticRollback := utils.Bool disableAutomaticRollback;
          compute.EnableAutomaticOSUpgrade := utils.Bool enableAutomaticOSUpgrade |}) policy)
      else Next policy);
    policy ← (if bool_decide (len rollingPoliciesRaw > 0) then
        _ ← (if bool_decide (compute.Mode policy ≠ compute.Rolling)
             then Return (None, Some ErrRollingBlockWithoutMode)
             else Next ());
        y ← index0 rollingPoliciesRaw;
        rollingRaw ← as_map y;
        maxBatch ← as_int (at_key rollingRaw "max_batch_instance_percent");
        maxUnhealthy ← as_int (at_key rollingRaw "max_unhealthy_instance_percent");
        maxUnhealthyUpgraded ←
          as_int (at_key rollingRaw "max_unhealthy_upgraded_instance_percent");
        pause ← as_string (at_key rollingRaw "pause_time_between_batches");
        Next (set_RollingUpgradePolicy (Some {|
          compute.MaxBatchInstancePercent := utils.Int32 (int32 maxBatch);
          compute.MaxUnhealthyInstancePercent := utils.Int32 (int32 maxUnhealthy);
          compute.MaxUnhealthyUpgradedInstancePercent :=
            utils.Int32 (int32 maxUnhealthyUpgraded);
          compute.PauseTimeBetweenBatches := utils.String pause |}) policy)
      else Next policy);
    _ ← (if bool_decide (compute.Mode policy = compute.Automatic) &&
            bool_decide (compute.AutomaticOSUpgradePolicy' policy = None)
         then Return (None, Some ErrAutomaticModeWithoutBlock)
         else Next ());
    _ ← (if bool_decide (compute.Mode policy = compute.Rolling) &&
            bool_decide (compute.RollingUpgradePolicy' policy = None)
         then Return (None, Some ErrRollingModeWithoutBlock)
         else Next ());
    Return (Some policy, None)).

Definition FlattenVirtualMachineScaleSetUpgradePolicy
    (input : option compute.UpgradePolicy) : list value :=
  match input with
  | None => []
  | Some input =>
      let automaticOutput := [] in
      let automaticOutput :=
        if compute.AutomaticOSUpgradePolicy' input is Some policy then
          let disableAutomaticRollback := false in
          let enableAutomaticOSUpgrade := false in
          let disableAutomaticRollback :=
            if compute.DisableAutomaticRollback policy is Some b
            then b else disableAutomaticRollback in
          let enableAutomaticOSUpgrade :=
            if compute.EnableAutomaticOSUpgrade policy is Some b
            then b else enableAutomaticOSUpgrade in
          automaticOutput ++ [VMap {[
            "disable_automatic_rollback" := VBool disableAutomaticRollback;
            "enable_automatic_os_upgrade" := VBool enableAutomaticOSUpgrade
          ]}]
        else automaticOutput in
      let rollingOutput := [] in
      let rollingOutput :=
        if compute.RollingUpgradePolicy' input is Some policy then
          let maxBatchInstancePercent := 0 in
          let maxUnhealthyInstancePercent := 0 in
          let maxUnhealthyUpgradedInstancePercent := 0 in
          let pauseTimeBetweenBatches := "" in
          let maxBatchInstancePercent :=
            if compute.MaxBatchInstancePercent policy is Some v
            then int v else maxBatchInstancePercent in
          let maxUnhealthyInstancePercent :=
            if compute.MaxUnhealthyInstancePercent policy is Some v
            then int v else maxUnhealthyInstancePercent in
          let maxUnhealthyUpgradedInstancePercent :=
            if compute.MaxUnhealthyUpgradedInstancePercent policy is Some v
            then int v else maxUnhealthyUpgradedInstancePercent in
          let pauseTimeBetweenBatches :=
            if compute.PauseTimeBetweenBatches policy is Some s
            then s else pauseTimeBetweenBatches in
          rollingOutput ++ [VMap {[
            "max_batch_instance_percent" := VInt maxBatchInstancePercent;
            "max_unhealthy_instance_percent" := VInt maxUnhealthyInstancePercent;
            "max_unhealthy_upgraded_instance_percent" :=
              VInt maxUnhealthyUpgradedInstancePercent;
            "pause_time_between_batches" := VString pauseTimeBetweenBatches
          ]}]
        else rollingOutput in
      [VMap {[
         "mode" := VString (compute.Mode input);
         "automatic_os_upgrade_policy" := VList automaticOutput;
         "rolling_upgrade_policy" := VList rollingOutput
       ]}]
  end.

(** * Definitions used by the statements *)

(** ** Reading a flattened result *)

(** The value of option [k] in the single block of the list [l], and the
    nested list of blocks under option [k]. *)
Definition field (l : list value) (k : string) : option value :=
  match l with
  | [VMap node] => node !! k
  | _ => None
  end.

Definition blocks (l : list value) (k : string) : list value :=
  match field l k with
  | Some (VList l') => l'
  | _ => []
  end.

(** ** Upgrade policy: the cross-field rules *)

(** The four rules as the specification words them, in its order. *)
Inductive rule : Set :=
  | AutomaticBlockNeedsMode
  | RollingBlockNeedsMode
  | AutomaticModeNeedsBlock
  | RollingModeNeedsBlock.

Definition rules : list rule :=
  [AutomaticBlockNeedsMode; RollingBlockNeedsMode;
   AutomaticModeNeedsBlock; RollingModeNeedsBlock].

(** Whether a node with this mode and these two lists of blocks breaks the
    rule. *)
Definition violated (mode : string) (automatic rolling : list value) (r : rule) : bool :=
  match r with
  | AutomaticBlockNeedsMode =>
      bool_decide (automatic ≠ []) && bool_decide (mode ≠ compute.Automatic)
  | RollingBlockNeedsMode =>
      bool_decide (rolling ≠ []) && bool_decide (mode ≠ compute.Rolling)
  | AutomaticModeNeedsBlock =>
      bool_decide (mode = compute.Automatic) && bool_decide (automatic = [])
  | RollingModeNeedsBlock =>
      bool_decide (mode = compute.Rolling) && bool_decide (rolling = [])
  end.

(** The first rule, in the order of the specification, that the node
    breaks. *)
Definition first_violated (mode : string) (automatic rolling : list value) : option rule :=
  List.find (violated mode automatic rolling) rules.

(** The message the specification attaches to each rule. *)
Definition rule_error (r : rule) : error :=
  match r with
  | AutomaticBlockNeedsMode => ErrAutomaticBlockWithoutMode
  | RollingBlockNeedsMode => ErrRollingBlockWithoutMode
  | AutomaticModeNeedsBlock => ErrAutomaticModeWithoutBlock
  | RollingModeNeedsBlock => ErrRollingModeWithoutBlock
  end.

(** ** Sample upgrade-policy nodes and policies *)

Definition automatic_block : value := VMap {[
  "disable_automatic_rollback" := VBool false;
  "enable_automatic_os_upgrade" := VBool true
]}.

Definition rolling_block : value := VMap {[
  "max_batch_instance_percent" := VInt 20;
  "max_unhealthy_instance_percent" := VInt 20;
  "max_unhealthy_upgraded_instance_percent" := VInt 5;
  "pause_time_between_batches" := VString "PT0S"
]}.

Definition upgrade_node (mode : string) (automatic rolling : list value)
    : gmap string value := {[
  "mode" := VString mode;
  "automatic_os_upgrade_policy" := VList automatic;
  "rolling_upgrade_policy" := VList rolling
]}.

Definition manual_node : gmap string value :=
  upgrade_node compute.Manual [] [].

Definition automatic_node : gmap string value :=
  upgrade_node compute.Automatic [automatic_block] [].

Definition automatic_policy : compute.UpgradePolicy := {|
  compute.Mode := compute.Automatic;
  compute.AutomaticOSUpgradePolicy' := Some {|
    compute.DisableAutomaticRollback := Some false;
    compute.EnableAutomaticOSUpgrade := Some true |};
  compute.RollingUpgradePolicy' := None
|}.

(** A policy as the provider may return it: a rolling sub-policy of which
    only one field is set, and no automatic sub-policy. *)
Definition sparse_rolling_policy : compute.UpgradePolicy := {|
  compute.Mode := compute.Rolling;
  compute.AutomaticOSUpgradePolicy' := None;
  compute.RollingUpgradePolicy' := Some {|
    compute.MaxBatchInstancePercent := Some 20;
    compute.MaxUnhealthyInstancePercent := None;
    compute.MaxUnhealthyUpgradedInstancePercent := None;
    compute.PauseTimeBetweenBatches := None |}
|}.

(** ** Sample OS-disk nodes *)

Definition os_disk_node : gmap string value := {[
  "caching" := VString "ReadWrite";
  "storage_account_type" := VString "Premium_LRS";
  "diff_disk_settings" := VList [VMap {[ "option" := VString "Local" ]}];
  "disk_size_gb" := VInt 1023;
  "write_accelerator_enabled" := VBool true
]}.

(** A node in which the user left out every optional setting: the framework
    hands over the zero value of each. *)
Definition os_disk_node_minimal : gmap string value := {[
  "caching" := VString "None";
  "storage_account_type" := VString "Standard_LRS";
  "diff_disk_settings" := VList [];
  "disk_size_gb" := VInt 0;
  "write_accelerator_enabled" := VBool false
]}.

(** ** A sample image reference *)

(** An image reference read back from a scale set created from an image id:
    the provider filled the identifier and the four marketplace fields. *)
Definition image_by_id : compute.ImageReference := {|
  compute.ID := Some "/subscriptions/0/resourceGroups/g/providers/Microsoft.Compute/images/i";
  compute.Publisher := Some "Canonical";
  compute.Offer := Some "UbuntuServer";
  compute.Sku := Some "16.04-LTS";
  compute.Version := Some "latest"
|}.

(** ** A path-parsing helper to run the identifier parser on *)

Module azure.
Record ResourceID := {
  Path : gmap string string
}.

(** The components of a path between its slashes, empty ones dropped;
    [cur] is the component being read. *)
Fixpoint components (path cur : string) : list string :=
  match path with
  | EmptyString => if cur is EmptyString then [] else [cur]
  | String c rest =>
      if String.eqb (String c EmptyString) "/"
      then (if cur is EmptyString then [] else [cur]) ++ components rest EmptyString
      else components rest (cur +:+ String c EmptyString)
  end.

(** The components taken two by two, a label and then its value. *)
Fixpoint segments (l : list string) : option (gmap string string) :=
  match l with
  | [] => Some ∅
  | [_] => None
  | label :: v :: l' => (λ m, <[label := v]> m) <$> segments l'
  end.

(** Modelled from the spec: [azure.ParseAzureResourceID], the shared
    path-parsing helper of package [helpers/azure], which is not part of
    this file. The specification says of it that it decomposes a
    hierarchical path [/label/value/...] into segments keyed by their
    label and fails on a malformed path; this definition does that and no
    more. The properties of the identifier parser are proved for every
    helper; this one serves to run the parser on concrete paths. *)
Definition ParseAzureResourceID (id : string) : option ResourceID * option error :=
  match segments (components id EmptyString) with
  | Some path => (Some {| Path := path |}, None)
  | None => (None, Some (Errorf "malformed resource path %q" [ArgString id]))
  end.
End azure.

Definition my_scale_set_id : string :=
  "/subscriptions/0000/resourceGroups/group1/providers/Microsoft.Compute/virtualMachineScaleSets/myScaleSet".

Definition my_scale_set_base : azure.ResourceID := {|
  azure.Path := {[
    "subscriptions" := "0000";
    "resourceGroups" := "group1";
    "providers" := "Microsoft.Compute";
    "virtualMachineScaleSets" := "myScaleSet"
  ]}
|}.

(** The error of the identifier parser for a missing or empty segment. *)
Definition ErrMissingElement : error :=
  Errorf "ID was missing the `virtualMachineScaleSets` element" [].

(** ** Further sample nodes and objects *)

Definition image_node : gmap string value := {[
  "publisher" := VString "Canonical";
  "offer" := VString "UbuntuServer";
  "sku" := VString "16.04-LTS";
  "version" := VString "latest"
]}.

Definition capabilities_node : gmap string value := {[
  "ultra_ssd_enabled" := VBool true
]}.

(** The disk that [os_disk_node_minimal] expands to for a Windows scale
    set. *)
Definition minimal_disk : compute.VirtualMachineScaleSetOSDisk := {|
  compute.Caching := "None";
  compute.WriteAcceleratorEnabled := Some false;
  compute.CreateOption := compute.DiskCreateOptionTypesFromImage;
  compute.DiffDiskSettings' := None;
  compute.DiskSizeGB := None;
  compute.OsType := compute.Windows;
  compute.ManagedDisk := Some {| compute.StorageAccountType := "Standard_LRS" |}
|}.

Definition rolling_node : gmap string value :=
  upgrade_node compute.Rolling [] [rolling_block].

(** The policy that [rolling_node] expands to. *)
Definition rolling_policy : compute.UpgradePolicy := {|
  compute.Mode := compute.Rolling;
  compute.AutomaticOSUpgradePolicy' := None;
  compute.RollingUpgradePolicy' := Some {|
    compute.MaxBatchInstancePercent := Some 20;
    compute.MaxUnhealthyInstancePercent := Some 20;
    compute.MaxUnhealthyUpgradedInstancePercent := Some 5;
    compute.PauseTimeBetweenBatches := Some "PT0S" |}
|}.

(** A rolling block whose first percentage does not fit in 32 bits: it is
    [2 ^ 32 + 20]. The schema puts no bound on the percentages. *)
Definition wide_rolling_block : gmap string value := {[
  "max_batch_instance_percent" := VInt 4294967316;
  "max_unhealthy_instance_percent" := VInt 20;
  "max_unhealthy_upgraded_instance_percent" := VInt 5;
  "pause_time_between_batches" := VString "PT0S"
]}.

Definition wide_rolling_node : gmap string value :=
  upgrade_node compute.Rolling [] [VMap wide_rolling_block].

(** The policy that [wide_rolling_node] expands to. *)
Definition wide_rolling_policy : compute.UpgradePolicy := {|
  compute.Mode := compute.Rolling;
  compute.AutomaticOSUpgradePolicy' := None;
  compute.RollingUpgradePolicy' := Some {|
    compute.MaxBatchInstancePercent := Some 20;
    compute.MaxUnhealthyInstancePercent := Some 20;
    compute.MaxUnhealthyUpgradedInstancePercent := Some 5;
    compute.PauseTimeBetweenBatches := Some "PT0S" |}
|}.

(** The values an [int32] holds. *)
Definition fits_int32 (n : Z) : Prop := - 2 ^ 31 ≤ n < 2 ^ 31.


(** * Properties *)

Arguments at_key : simpl never.

Lemma len_nil_not_pos {A} : ¬ len (@nil A) > 0.
Proof. unfold len. simpl. lia. Qed.

Lemma len_cons_pos {A} (x : A) l : len (x :: l) > 0.
Proof. unfold len. rewrite length_cons. lia. Qed.

Lemma at_key_lookup (raw : gmap string value) k v :
  raw !! k = Some v → at_key raw k = v.
Proof. unfold at_key. by intros ->. Qed.

(** Runs a body on a symbolic input. The statement about to execute is the
    head of the chain of binds; when its operand is not yet known the goal
    splits on the operand, and a branch that panics or returns stops. *)
Ltac flow_head e :=
  lazymatch e with
  | mbind _ ?x => flow_head x
  | _ => e
  end.

Ltac cond_solve :=
  solve [done | intros H; by apply H | congruence | unfold len; simpl; lia].

Ltac at_key_known m k :=
  match goal with
  | H : m !! k = Some _ |- _ => rewrite (at_key_lookup _ _ _ H)
  end.

Ltac flow_cond c :=
  lazymatch c with
  | ?a && _ => flow_cond a
  | bool_decide (len [] > 0) =>
      rewrite (bool_decide_eq_false_2 _ len_nil_not_pos)
  | bool_decide (len (?x :: ?l) > 0) =>
      rewrite (bool_decide_eq_true_2 _ (len_cons_pos x l))
  | bool_decide (len ?l > 0) => is_var l; destruct l
  | bool_decide (len ?l = 0) => is_var l; destruct l
  | bool_decide ?P =>
      first [ rewrite (bool_decide_eq_true_2 P) by cond_solve
            | rewrite (bool_decide_eq_false_2 P) by cond_solve
            | destruct (bool_decide_reflect P) ]
  end.

Ltac flow_step :=
  lazymatch goal with
  | |- context [run ?body] =>
      let s := flow_head body in
      lazymatch s with
      | _ (at_key ?m ?k) => first [at_key_known m k | destruct (at_key m k) eqn:?]
      | as_bool ?v => destruct v eqn:?
      | as_int ?v => destruct v eqn:?
      | as_string ?v => destruct v eqn:?
      | as_list ?v => destruct v eqn:?
      | as_map ?v => destruct v eqn:?
      | index0 ?l => is_var l; destruct l
      | if ?c then _ else _ => flow_cond c
      | match ?o with Some _ => _ | None => _ end => destruct o eqn:?
      | let '(_, _) := ?p in _ => destruct p eqn:?
      end
  end.

Ltac flow_exec := simpl; repeat (flow_step; simpl).


(** Breaks a conformance hypothesis, once the schema table is unfolded, into
    the typed lookups it stands for. *)
Ltac conforms_inv :=
  repeat match goal with
  | H : true = true |- _ => clear H
  | H : false = true |- _ => discriminate H
  | H : _ && _ = true |- _ => apply andb_prop in H as [? ?]
  | H : bool_decide _ = true |- _ => apply bool_decide_eq_true_1 in H
  | H : (length (_ :: _ :: _) ≤ 1)%nat |- _ => simpl in H; lia
  | H : [] ≠ [] |- _ => destruct (H eq_refl)
  | H : forallb _ ?l = true |- _ => destruct l; simpl in H
  | H : match ?x with _ => _ end = true |- _ => destruct x eqn:?; try discriminate H
  end.

Ltac decide_conds :=
  repeat (first [ rewrite bool_decide_eq_true_2 by cond_solve
                | rewrite bool_decide_eq_false_2 by cond_solve ]; simpl).


(** ** Upgrade policy: the cross-field rules *)

Lemma rule_error_format_inj r r' :
  format_of (rule_error r) = format_of (rule_error r') → r = r'.
Proof. destruct r, r'; first [reflexivity | discriminate]. Qed.

Lemma rule_in_rules r : In r rules.
Proof. destruct r; simpl; tauto. Qed.

(** On a conforming node the function answers with the message of the first
    broken rule, and with a policy when no rule is broken. *)
Lemma expand_upgrade_policy_first_violated raw :
  schema.conforms VirtualMachineScaleSetUpgradePolicySchema (VList [VMap raw]) = true →
  ∃ mode automatic rolling,
    raw !! "mode" = Some (VString mode) ∧
    raw !! "automatic_os_upgrade_policy" = Some (VList automatic) ∧
    raw !! "rolling_upgrade_policy" = Some (VList rolling) ∧
    match first_violated mode automatic rolling with
    | Some r =>
        ExpandVirtualMachineScaleSetUpgradePolicy [VMap raw]
        = Returns (None, Some (rule_error r))
    | None =>
        ∃ policy, ExpandVirtualMachineScaleSetUpgradePolicy [VMap raw]
                  = Returns (Some policy, None)
    end.
Proof.
  unfold VirtualMachineScaleSetUpgradePolicySchema. simpl. intros H.
  conforms_inv.
  all: do 3 eexists; (split; [done|]); (split; [done|]); (split; [done|]).
  all: match goal with H : _ !! "mode" = Some (VString ?s) |- _ =>
         destruct (decide (s = compute.Automatic)) as [->|];
           [|destruct (decide (s = compute.Rolling)) as [->|]] end.
  all: unfold ExpandVirtualMachineScaleSetUpgradePolicy, first_violated.
  all: flow_exec; decide_conds; eauto.
Qed.

(** The conditions of two rules can hold of the same node: the order of the
    guards then decides which message the caller sees. *)
Lemma rules_overlap :
  violated compute.Manual [automatic_block] [rolling_block] AutomaticBlockNeedsMode = true ∧
  violated compute.Manual [automatic_block] [rolling_block] RollingBlockNeedsMode = true ∧
  violated compute.Automatic [] [rolling_block] RollingBlockNeedsMode = true ∧
  violated compute.Automatic [] [rolling_block] AutomaticModeNeedsBlock = true.
Proof. repeat split; vm_compute; reflexivity. Qed.

(** C1. On every schema-conforming one-element input, the function enforces
    the four cross-field rules as guards taken in the stated order: it
    returns the message of the first rule the node breaks; a node that breaks
    any of the rules is rejected; a node that breaks none is accepted with a
    policy; one call returns the message of at most one rule; and the four
    messages are pairwise distinct. *)
Theorem expand_upgrade_policy_rules raw mode automatic rolling :
  schema.conforms VirtualMachineScaleSetUpgradePolicySchema (VList [VMap raw]) = true →
  raw !! "mode" = Some (VString mode) →
  raw !! "automatic_os_upgrade_policy" = Some (VList automatic) →
  raw !! "rolling_upgrade_policy" = Some (VList rolling) →
  let result := ExpandVirtualMachineScaleSetUpgradePolicy [VMap raw] in
  let broken := violated mode automatic rolling in
  (∀ r, first_violated mode automatic rolling = Some r →
        result = Returns (None, Some (rule_error r))) ∧
  (∀ r, broken r = true → ∃ r', result = Returns (None, Some (rule_error r'))) ∧
  ((∀ r, broken r = false) → ∃ policy, result = Returns (Some policy, None)) ∧
  (∀ r r', result = Returns (None, Some (rule_error r)) →
           result = Returns (None, Some (rule_error r')) → r = r') ∧
  (∀ r r', format_of (rule_error r) = format_of (rule_error r') → r = r').
Proof.
  intros Hok Hm Ha Hr result broken.
  destruct (expand_upgrade_policy_first_violated raw Hok)
    as (mode' & automatic' & rolling' & Hm' & Ha' & Hr' & Hfirst).
  simplify_eq. fold result in Hfirst.
  split_and!.
  - intros r Hfv. by rewrite Hfv in Hfirst.
  - intros r Hbroken.
    destruct (first_violated mode automatic rolling) as [r'|] eqn:Hfv; [eauto|].
    pose proof (find_none _ _ Hfv r (rule_in_rules r)) as Hnone.
    fold broken in Hnone. congruence.
  - intros Hnone.
    destruct (first_violated mode automatic rolling) as [r|] eqn:Hfv; [|done].
    apply find_some in Hfv as [_ Hfv]. fold broken in Hfv.
    rewrite Hnone in Hfv. discriminate.
  - intros r r' H1 H2. rewrite H1 in H2.
    apply rule_error_format_inj. congruence.
  - apply rule_error_format_inj.
Qed.

Lemma expand_upgrade_policy_rules_witness :
  ∃ policy,
    ExpandVirtualMachineScaleSetUpgradePolicy [VMap manual_node] = Returns (Some policy, None).
Proof.
  refine (proj1 (proj2 (proj2
    (expand_upgrade_policy_rules manual_node compute.Manual [] [] _ _ _ _))) _).
  - vm_compute; reflexivity.
  - vm_compute; reflexivity.
  - vm_compute; reflexivity.
  - vm_compute; reflexivity.
  - intros []; vm_compute; reflexivity.
Defined.

(** The four sample inputs of the specification: Automatic with its block is
    accepted; Automatic without its block and Rolling with an automatic
    block are refused, each with its own message; Manual with neither block
    is accepted and both nested lists flatten to the empty list. *)
Lemma expand_upgrade_policy_samples :
  ExpandVirtualMachineScaleSetUpgradePolicy [VMap automatic_node]
    = Returns (Some automatic_policy, None) ∧
  ExpandVirtualMachineScaleSetUpgradePolicy
    [VMap (upgrade_node compute.Automatic [] [])]
    = Returns (None, Some ErrAutomaticModeWithoutBlock) ∧
  Contains (format_of ErrAutomaticModeWithoutBlock) "Automatic" = true ∧
  ExpandVirtualMachineScaleSetUpgradePolicy
    [VMap (upgrade_node compute.Rolling [automatic_block] [])]
    = Returns (None, Some ErrAutomaticBlockWithoutMode) ∧
  match ExpandVirtualMachineScaleSetUpgradePolicy [VMap manual_node] with
  | Returns (policy, None) =>
      blocks (FlattenVirtualMachineScaleSetUpgradePolicy policy)
        "automatic_os_upgrade_policy" = [] ∧
      blocks (FlattenVirtualMachineScaleSetUpgradePolicy policy)
        "rolling_upgrade_policy" = [] ∧
      field (FlattenVirtualMachineScaleSetUpgradePolicy policy) "mode"
        = Some (VString compute.Manual)
  | _ => False
  end.
Proof. vm_compute. repeat split. Qed.

(** ** Upgrade policy: what a returned policy looks like *)

(** C8. When the function returns without an error, the returned policy has
    an automatic sub-policy exactly when its mode is Automatic and a rolling
    sub-policy exactly when its mode is Rolling; when it returns an error,
    the policy pointer is nil. *)
Theorem expand_upgrade_policy_invariant input p e :
  ExpandVirtualMachineScaleSetUpgradePolicy input = Returns (p, e) →
  (e = None →
     ∃ policy, p = Some policy ∧
       (is_Some (compute.AutomaticOSUpgradePolicy' policy)
          ↔ compute.Mode policy = compute.Automatic) ∧
       (is_Some (compute.RollingUpgradePolicy' policy)
          ↔ compute.Mode policy = compute.Rolling)) ∧
  (e ≠ None → p = None).
Proof.
  unfold ExpandVirtualMachineScaleSetUpgradePolicy.
  flow_exec; intros [= <- <-]; (split; [|done]); try done.
  all: intros _; eexists; split; [done|]; simpl.
  all: split; split; first [done | by intros [? [=]] | by intros ?; eexists | idtac].
  all: try by (intros ?; exfalso; cond_solve).
Qed.

Lemma expand_upgrade_policy_invariant_witness :
  (@None error = None →
     ∃ policy, Some automatic_policy = Some policy ∧
       (is_Some (compute.AutomaticOSUpgradePolicy' policy)
          ↔ compute.Mode policy = compute.Automatic) ∧
       (is_Some (compute.RollingUpgradePolicy' policy)
          ↔ compute.Mode policy = compute.Rolling)) ∧
  (@None error ≠ None → Some automatic_policy = None).
Proof.
  apply (expand_upgrade_policy_invariant [VMap automatic_node]).
  vm_compute. reflexivity.
Defined.

(** ** The unguarded read of the first element *)

(** C9. [ExpandVirtualMachineScaleSetOSDisk] and
    [ExpandVirtualMachineScaleSetUpgradePolicy] read [input[0]] without a
    guard: on the empty list they panic with an index out of range, so they
    return neither a value nor an error, and on a non-empty list that panic
    does not occur (the only other indexing, of a nested block, is guarded by
    a length test). *)
Theorem expand_first_element_bounds :
  (∀ input osType,
     ExpandVirtualMachineScaleSetOSDisk input osType = Panics IndexOutOfRange
     ↔ input = []) ∧
  (∀ input,
     ExpandVirtualMachineScaleSetUpgradePolicy input = Panics IndexOutOfRange
     ↔ input = []).
Proof.
  split; intros input; intros; (split; [|by intros ->]).
  - destruct input as [|x input]; [done|].
    unfold ExpandVirtualMachineScaleSetOSDisk. flow_exec; done.
  - destruct input as [|x input]; [done|].
    unfold ExpandVirtualMachineScaleSetUpgradePolicy. flow_exec; done.
Qed.

(** ** Additional capabilities *)

(** C10. [ExpandVirtualMachineScaleSetAdditionalCapabilities] never returns
    the nil pointer; on the empty list it returns an object whose flag is
    unset, which flattens to one node with [ultra_ssd_enabled = false] and
    not to the empty list. *)
Theorem additional_capabilities_empty_round_trip :
  (∀ input,
     (∃ capabilities,
        ExpandVirtualMachineScaleSetAdditionalCapabilities input
        = Returns (Some capabilities)) ∨
     (∃ p, ExpandVirtualMachineScaleSetAdditionalCapabilities input = Panics p)) ∧
  ExpandVirtualMachineScaleSetAdditionalCapabilities []
  = Returns (Some {| compute.UltraSSDEnabled := None |}) ∧
  FlattenVirtualMachineScaleSetAdditionalCapabilities
    (Some {| compute.UltraSSDEnabled := None |})
  = [VMap {[ "ultra_ssd_enabled" := VBool false ]}] ∧
  FlattenVirtualMachineScaleSetAdditionalCapabilities
    (Some {| compute.UltraSSDEnabled := None |}) ≠ [].
Proof.
  split_and!; [|done..].
  intros input. unfold ExpandVirtualMachineScaleSetAdditionalCapabilities.
  flow_exec; eauto.
Qed.

(** ** Source image reference *)

(** C4. [FlattenVirtualMachineScaleSetSourceImageReference] returns the empty
    list when the object is absent or its [ID] is set, whatever the other
    four fields hold; otherwise it returns one node with the four string
    fields, an unset one reading as the empty string. *)
Theorem flatten_source_image_reference_spec :
  FlattenVirtualMachineScaleSetSourceImageReference None = [] ∧
  (∀ input, is_Some (compute.ID input) →
     FlattenVirtualMachineScaleSetSourceImageReference (Some input) = []) ∧
  (∀ input, compute.ID input = None →
     FlattenVirtualMachineScaleSetSourceImageReference (Some input)
     = [VMap {[
          "publisher" := VString (default "" (compute.Publisher input));
          "offer" := VString (default "" (compute.Offer input));
          "sku" := VString (default "" (compute.Sku input));
          "version" := VString (default "" (compute.Version input))
        ]}]).
Proof.
  split_and!; [done|..].
  - intros [id p o s v] [x Hx]; simpl in *. by subst.
  - intros [id p o s v] Hid; simpl in *. subst.
    by destruct p, o, s, v.
Qed.

Lemma flatten_source_image_reference_witness :
  FlattenVirtualMachineScaleSetSourceImageReference (Some image_by_id) = [].
Proof.
  apply (proj1 (proj2 flatten_source_image_reference_spec) image_by_id).
  simpl. by eexists.
Defined.

(** ** Flattening the upgrade policy *)

(** C6. [FlattenVirtualMachineScaleSetUpgradePolicy] returns the empty list
    for an absent policy and otherwise one node, in which a sub-policy that
    is absent is the empty list, and a sub-policy that is present is a list
    of exactly one block holding its fields, an unset field reading as
    [false], [0] or the empty string. *)
Theorem flatten_upgrade_policy_spec :
  FlattenVirtualMachineScaleSetUpgradePolicy None = [] ∧
  ∀ input, ∃ node,
    FlattenVirtualMachineScaleSetUpgradePolicy (Some input) = [VMap node] ∧
    node !! "mode" = Some (VString (compute.Mode input)) ∧
    (compute.AutomaticOSUpgradePolicy' input = None →
       node !! "automatic_os_upgrade_policy" = Some (VList [])) ∧
    (compute.RollingUpgradePolicy' input = None →
       node !! "rolling_upgrade_policy" = Some (VList [])) ∧
    (∀ policy, compute.AutomaticOSUpgradePolicy' input = Some policy →
       node !! "automatic_os_upgrade_policy" = Some (VList [VMap {[
         "disable_automatic_rollback" :=
           VBool (default false (compute.DisableAutomaticRollback policy));
         "enable_automatic_os_upgrade" :=
           VBool (default false (compute.EnableAutomaticOSUpgrade policy))
       ]}])) ∧
    (∀ policy, compute.RollingUpgradePolicy' input = Some policy →
       node !! "rolling_upgrade_policy" = Some (VList [VMap {[
         "max_batch_instance_percent" :=
           VInt (default 0 (compute.MaxBatchInstancePercent policy));
         "max_unhealthy_instance_percent" :=
           VInt (default 0 (compute.MaxUnhealthyInstancePercent policy));
         "max_unhealthy_upgraded_instance_percent" :=
           VInt (default 0 (compute.MaxUnhealthyUpgradedInstancePercent policy));
         "pause_time_between_batches" :=
           VString (default "" (compute.PauseTimeBetweenBatches policy))
       ]}])).
Proof.
  split; [done|].
  intros [mode automatic rolling]. eexists. split; [reflexivity|]. simpl.
  split_and!.
  - by simplify_map_eq.
  - intros ->. by simplify_map_eq.
  - intros ->. by simplify_map_eq.
  - intros [dis en] ->. simplify_map_eq. by destruct dis, en.
  - intros [a b c d] ->. simplify_map_eq. by destruct a, b, c, d.
Qed.

Lemma flatten_upgrade_policy_witness :
  ∃ node,
    FlattenVirtualMachineScaleSetUpgradePolicy (Some sparse_rolling_policy) = [VMap node] ∧
    node !! "automatic_os_upgrade_policy" = Some (VList []) ∧
    node !! "rolling_upgrade_policy" = Some (VList [VMap {[
      "max_batch_instance_percent" := VInt 20;
      "max_unhealthy_instance_percent" := VInt 0;
      "max_unhealthy_upgraded_instance_percent" := VInt 0;
      "pause_time_between_batches" := VString ""
    ]}]).
Proof.
  destruct (proj2 flatten_upgrade_policy_spec sparse_rolling_policy)
    as (node & Hnode & _ & Hauto & _ & _ & Hrolling).
  exists node. split; [exact Hnode|]. split.
  - apply Hauto. reflexivity.
  - apply (Hrolling _ eq_refl).
Defined.

(** ** Defaults of the optional scalar fields *)

(** C7. In the flatten functions, an optional scalar field of the provider
    object reads, in the output node, as its value when it is set and as the
    default of its type when it is not: [false] for a boolean, [0] for an
    integer, the empty string for a string. *)
Theorem flatten_optional_scalar_defaults :
  (∀ input,
     field (FlattenVirtualMachineScaleSetAdditionalCapabilities (Some input))
       "ultra_ssd_enabled"
     = Some (VBool (default false (compute.UltraSSDEnabled input)))) ∧
  (∀ input,
     let out := FlattenVirtualMachineScaleSetOSDisk (Some input) in
     field out "disk_size_gb"
       = Some (VInt (default 0 (compute.DiskSizeGB input))) ∧
     field out "write_accelerator_enabled"
       = Some (VBool (default false (compute.WriteAcceleratorEnabled input))) ∧
     field out "storage_account_type"
       = Some (VString (default "" (compute.StorageAccountType <$>
                                      compute.ManagedDisk input)))) ∧
  (∀ input policy,
     compute.AutomaticOSUpgradePolicy' input = Some policy →
     let out :=
       blocks (FlattenVirtualMachineScaleSetUpgradePolicy (Some input))
         "automatic_os_upgrade_policy" in
     field out "disable_automatic_rollback"
       = Some (VBool (default false (compute.DisableAutomaticRollback policy))) ∧
     field out "enable_automatic_os_upgrade"
       = Some (VBool (default false (compute.EnableAutomaticOSUpgrade policy)))) ∧
  (∀ input policy,
     compute.RollingUpgradePolicy' input = Some policy →
     let out :=
       blocks (FlattenVirtualMachineScaleSetUpgradePolicy (Some input))
         "rolling_upgrade_policy" in
     field out "max_batch_instance_percent"
       = Some (VInt (default 0 (compute.MaxBatchInstancePercent policy))) ∧
     field out "max_unhealthy_instance_percent"
       = Some (VInt (default 0 (compute.MaxUnhealthyInstancePercent policy))) ∧
     field out "max_unhealthy_upgraded_instance_percent"
       = Some (VInt (default 0 (compute.MaxUnhealthyUpgradedInstancePercent policy))) ∧
     field out "pause_time_between_batches"
       = Some (VString (default "" (compute.PauseTimeBetweenBatches policy)))) ∧
  (∀ input,
     compute.ID input = None →
     let out := FlattenVirtualMachineScaleSetSourceImageReference (Some input) in
     field out "publisher" = Some (VString (default "" (compute.Publisher input))) ∧
     field out "offer" = Some (VString (default "" (compute.Offer input))) ∧
     field out "sku" = Some (VString (default "" (compute.Sku input))) ∧
     field out "version" = Some (VString (default "" (compute.Version input)))).
Proof.
  split_and!.
  - intros [[b|]]; by simplify_map_eq.
  - intros [c w o d [size|] os m]; simpl; [case_bool_decide|];
      destruct w, m; simplify_map_eq; auto with f_equal.
  - intros [mode automatic rolling] [dis en] ?; simplify_eq/=.
    unfold blocks; simplify_map_eq. by destruct dis, en.
  - intros [mode automatic rolling] [a b c d] ?; simplify_eq/=.
    unfold blocks; simplify_map_eq. by destruct a, b, c, d.
  - intros [id p o s v] ?; simplify_eq/=.
    destruct p, o, s, v; by simplify_map_eq.
Qed.

Lemma flatten_optional_scalar_defaults_witness :
  let out :=
    blocks (FlattenVirtualMachineScaleSetUpgradePolicy (Some sparse_rolling_policy))
      "rolling_upgrade_policy" in
  field out "max_batch_instance_percent" = Some (VInt 20) ∧
  field out "max_unhealthy_instance_percent" = Some (VInt 0) ∧
  field out "max_unhealthy_upgraded_instance_percent" = Some (VInt 0) ∧
  field out "pause_time_between_batches" = Some (VString "").
Proof.
  exact (proj1 (proj2 (proj2 (proj2 flatten_optional_scalar_defaults)))
           sparse_rolling_policy _ eq_refl).
Defined.

(** ** OS disk *)

Lemma at_key_inv (raw : gmap string value) k v :
  at_key raw k = v → v ≠ VNil → raw !! k = Some v.
Proof. unfold at_key. destruct (raw !! k); simpl; congruence. Qed.

Lemma int32_small x : - 2 ^ 31 ≤ x < 2 ^ 31 → int32 x = x.
Proof. intros Hx. unfold int32. rewrite Z.mod_small; lia. Qed.

(** What conformance to the OS-disk schema says of a one-element input. *)
Lemma os_disk_conforms_inv raw :
  schema.conforms VirtualMachineScaleSetOSDiskSchema (VList [VMap raw]) = true →
  ∃ caching storageAccountType diff size writeAccelerator,
    raw !! "caching" = Some (VString caching) ∧
    raw !! "storage_account_type" = Some (VString storageAccountType) ∧
    raw !! "diff_disk_settings" = Some (VList diff) ∧
    raw !! "disk_size_gb" = Some (VInt size) ∧
    raw !! "write_accelerator_enabled" = Some (VBool writeAccelerator) ∧
    0 ≤ size ≤ 1023 ∧
    (diff = [] ∨ ∃ option, diff = [VMap {[ "option" := VString option ]}]) ∧
    dom raw = list_to_set ["caching"; "storage_account_type"; "diff_disk_settings";
                           "disk_size_gb"; "write_accelerator_enabled"].
Proof.
  unfold VirtualMachineScaleSetOSDiskSchema. simpl. intros H.
  conforms_inv.
  all: unfold validation.IntBetween in *; conforms_inv.
  all: do 5 eexists; split_and!; try done; try lia.
  - by left.
  - right.
    match goal with Hd : dom ?m = _, Ho : ?m !! "option" = Some (VString ?o) |- _ =>
      exists o; rewrite (right_id_L ∅ (∪)) in Hd;
      apply dom_singleton_inv_L in Hd as [x ->] end.
    by simplify_map_eq.
Qed.

(** The disk that expanding a conforming node builds, and the node that
    flattening that disk gives back. *)
Lemma expand_os_disk_conforming raw osType :
  schema.conforms VirtualMachineScaleSetOSDiskSchema (VList [VMap raw]) = true →
  ∃ caching storageAccountType diff size writeAccelerator disk,
    raw !! "caching" = Some (VString caching) ∧
    raw !! "storage_account_type" = Some (VString storageAccountType) ∧
    raw !! "diff_disk_settings" = Some (VList diff) ∧
    raw !! "disk_size_gb" = Some (VInt size) ∧
    raw !! "write_accelerator_enabled" = Some (VBool writeAccelerator) ∧
    0 ≤ size ≤ 1023 ∧
    ExpandVirtualMachineScaleSetOSDisk [VMap raw] osType = Returns (Some disk) ∧
    compute.DiskSizeGB disk = (if bool_decide (size > 0) then Some size else None) ∧
    FlattenVirtualMachineScaleSetOSDisk (Some disk) = [VMap {[
      "caching" := VString caching;
      "disk_size_gb" := VInt size;
      "diff_data_settings" := VList diff;
      "storage_account_type" := VString storageAccountType;
      "write_accelerator_enabled" := VBool writeAccelerator
    ]}].
Proof.
  intros (caching & sat & diff & size & wae & Hc & Hs & Hd & Hz & Hw & Hsize & Hdiff & _)
    %os_disk_conforms_inv.
  exists caching, sat, diff, size, wae.
  unfold ExpandVirtualMachineScaleSetOSDisk.
  destruct Hdiff as [->|[option ->]];
    [|pose proof (lookup_singleton_eq (M:=gmap string) "option" (VString option))];
    flow_exec.
  all: rewrite int32_small by lia.
  all: eexists; split_and!; try done; try lia.
  all: repeat case_bool_decide; simpl; unfold int;
       repeat case_bool_decide; try done; try lia.
  all: by replace size with 0 by lia.
Qed.

Ltac split_andb :=
  repeat match goal with
  | H : _ && _ = true |- _ => apply andb_prop in H as [? ?]
  | |- _ && _ = true => apply andb_true_intro; split
  end.

(** The schema accepts exactly the sizes from 0 to 1023: putting another
    size in a conforming node keeps it conforming exactly in that range. *)
Lemma os_disk_schema_size_range raw n :
  schema.conforms VirtualMachineScaleSetOSDiskSchema (VList [VMap raw]) = true →
  schema.conforms VirtualMachineScaleSetOSDiskSchema
    (VList [VMap (<["disk_size_gb" := VInt n]> raw)]) = true
  ↔ 0 ≤ n ≤ 1023.
Proof.
  intros Hraw.
  destruct (os_disk_conforms_inv raw Hraw)
    as (? & ? & ? & size & ? & _ & _ & _ & Hsize & _).
  revert Hraw. unfold VirtualMachineScaleSetOSDiskSchema. simpl.
  rewrite dom_insert_lookup_L by (by rewrite Hsize).
  rewrite lookup_insert_eq, !lookup_insert_ne by done.
  intros Hraw. split.
  - intros H. split_andb. unfold validation.IntBetween in *. split_andb.
    split; by eapply bool_decide_eq_true_1.
  - intros [? ?]. split_andb; try done.
    unfold validation.IntBetween. split_andb; by apply bool_decide_eq_true_2.
Qed.

(** C3. The expanded disk has no size when [disk_size_gb] is [0] and has one
    exactly when [disk_size_gb > 0], on every one-element input on which the
    function returns. On a schema-conforming input it does return, the size
    it carries is [disk_size_gb] itself and so is never [0], and the schema
    accepts for [disk_size_gb] exactly the values from 0 to 1023. *)
Theorem expand_os_disk_size :
  (∀ raw osType r,
     ExpandVirtualMachineScaleSetOSDisk [VMap raw] osType = Returns r →
     ∃ size disk,
       raw !! "disk_size_gb" = Some (VInt size) ∧ r = Some disk ∧
       (size = 0 → compute.DiskSizeGB disk = None) ∧
       (is_Some (compute.DiskSizeGB disk) ↔ size > 0)) ∧
  (∀ raw osType,
     schema.conforms VirtualMachineScaleSetOSDiskSchema (VList [VMap raw]) = true →
     ∃ size disk,
       raw !! "disk_size_gb" = Some (VInt size) ∧
       ExpandVirtualMachineScaleSetOSDisk [VMap raw] osType = Returns (Some disk) ∧
       compute.DiskSizeGB disk = (if bool_decide (size > 0) then Some size else None) ∧
       compute.DiskSizeGB disk ≠ Some 0 ∧
       ∀ n, schema.conforms VirtualMachineScaleSetOSDiskSchema
              (VList [VMap (<["disk_size_gb" := VInt n]> raw)]) = true
            ↔ 0 ≤ n ≤ 1023).
Proof.
  split.
  - intros raw osType r. unfold ExpandVirtualMachineScaleSetOSDisk.
    flow_exec; intros [= <-].
    all: match goal with H : at_key _ "disk_size_gb" = VInt ?n |- _ =>
           apply at_key_inv in H; [|done]; exists n end.
    all: eexists; split_and!; try done; simpl.
    all: case_bool_decide; simpl; try (intros; lia); try done.
    all: split; [by intros [? [=]] | try lia; by eexists].
  - intros raw osType Hraw.
    destruct (expand_os_disk_conforming raw osType Hraw)
      as (? & ? & ? & size & ? & disk & _ & _ & _ & Hsize & _ & Hrange & Hexp & Hdisk & _).
    exists size, disk. split_and!; try done.
    + rewrite Hdisk. case_bool_decide; [|done]. intros [= ->]. lia.
    + intros n. by apply os_disk_schema_size_range.
Qed.

Lemma expand_os_disk_size_witness :
  ∃ size disk,
    os_disk_node !! "disk_size_gb" = Some (VInt size) ∧
    ExpandVirtualMachineScaleSetOSDisk [VMap os_disk_node] compute.Linux
    = Returns (Some disk) ∧
    compute.DiskSizeGB disk = (if bool_decide (size > 0) then Some size else None) ∧
    compute.DiskSizeGB disk ≠ Some 0 ∧
    ∀ n, schema.conforms VirtualMachineScaleSetOSDiskSchema
           (VList [VMap (<["disk_size_gb" := VInt n]> os_disk_node)]) = true
         ↔ 0 ≤ n ≤ 1023.
Proof.
  apply (proj2 expand_os_disk_size os_disk_node compute.Linux).
  vm_compute. reflexivity.
Defined.

(** The two ends of the accepted range, and the first size beyond it. *)
Lemma os_disk_schema_size_boundary :
  schema.conforms VirtualMachineScaleSetOSDiskSchema
    (VList [VMap (<["disk_size_gb" := VInt 0]> os_disk_node)]) = true ∧
  schema.conforms VirtualMachineScaleSetOSDiskSchema
    (VList [VMap (<["disk_size_gb" := VInt 1023]> os_disk_node)]) = true ∧
  schema.conforms VirtualMachineScaleSetOSDiskSchema
    (VList [VMap (<["disk_size_gb" := VInt 1024]> os_disk_node)]) = false.
Proof. repeat split; vm_compute; reflexivity. Qed.

(** ** The identifier parser *)

Section ParseID.
Context {ResourceID : Type}.
Variable Path : ResourceID → gmap string string.
Variable ParseAzureResourceID : string → option ResourceID * option error.

Let Parse := ParseVirtualMachineScaleSetResourceID ResourceID Path ParseAzureResourceID.

(** C5. Whatever the path-parsing helper is, the identifier parser succeeds
    exactly when the helper succeeds and the segment labelled
    [virtualMachineScaleSets] is there and is not empty, and the [Name] of
    the result is then that segment; when the helper succeeds and the
    segment is missing or empty, the parser fails with the error whose
    message names the label; when the helper fails, the parser fails with
    an error that wraps the helper's. *)
Theorem parse_resource_id_spec input :
  (∀ id,
     Parse input = Returns (Some id, None) ↔
     ∃ base,
       ParseAzureResourceID input = (Some base, None) ∧
       Base id = base ∧
       Path base !! "virtualMachineScaleSets" = Some (Name id) ∧
       Name id ≠ "") ∧
  (∀ base,
     ParseAzureResourceID input = (Some base, None) →
     Path base !! "virtualMachineScaleSets" = None ∨
     Path base !! "virtualMachineScaleSets" = Some "" →
     Parse input = Returns (None, Some ErrMissingElement)) ∧
  Contains (format_of ErrMissingElement) "virtualMachineScaleSets" = true ∧
  (∀ base err,
     ParseAzureResourceID input = (base, Some err) →
     Parse input = Returns (None, Some (Errorf
       "[ERROR] Unable to parse Virtual Machine Scale Set ID %q: %+v"
       [ArgString input; ArgError err]))).
Proof.
  subst Parse. unfold ParseVirtualMachineScaleSetResourceID. split_and!.
  - intros id. split.
    + destruct (ParseAzureResourceID input) as [[base|] [err|]]; simpl; try done.
      case_bool_decide as Hname; simpl; [done|]. intros [= <-]. simpl in *.
      exists base. split_and!; try done.
      destruct (Path base !! "virtualMachineScaleSets"); simpl in *; congruence.
    + intros (base & -> & <- & Hseg & Hname). simpl. rewrite Hseg. simpl.
      rewrite bool_decide_eq_false_2 by done. by destruct id.
  - intros base -> Hseg. simpl.
    rewrite bool_decide_eq_true_2; [done|].
    by destruct Hseg as [-> | ->].
  - vm_compute. reflexivity.
  - intros base err ->. reflexivity.
Qed.
End ParseID.

Lemma parse_resource_id_witness :
  ParseVirtualMachineScaleSetResourceID azure.ResourceID azure.Path
    azure.ParseAzureResourceID my_scale_set_id
  = Returns (Some {| Base := my_scale_set_base; Name := "myScaleSet" |}, None).
Proof.
  apply (proj1 (parse_resource_id_spec azure.Path azure.ParseAzureResourceID
                  my_scale_set_id)).
  exists my_scale_set_base. split_and!.
  - vm_compute. reflexivity.
  - reflexivity.
  - vm_compute. reflexivity.
  - discriminate.
Defined.

(** A path without the segment is refused with the error that names it. *)
Lemma parse_resource_id_missing_segment :
  ParseVirtualMachineScaleSetResourceID azure.ResourceID azure.Path
    azure.ParseAzureResourceID "/subscriptions/0000/resourceGroups/group1"
  = Returns (None, Some ErrMissingElement).
Proof. vm_compute. reflexivity. Qed.

(** ** OS disk: expanding and flattening back *)

(** C2. Expanding a schema-conforming OS-disk node and flattening the result
    gives one node that repeats [caching], [storage_account_type],
    [disk_size_gb] and [write_accelerator_enabled] under their own keys, but
    holds the nested list of [diff_disk_settings] under the key
    [diff_data_settings]: the key [diff_disk_settings], which the schema
    declares and the input always has, is not in the output. *)
Theorem os_disk_round_trip_key raw osType :
  schema.conforms VirtualMachineScaleSetOSDiskSchema (VList [VMap raw]) = true →
  ∃ disk out,
    ExpandVirtualMachineScaleSetOSDisk [VMap raw] osType = Returns (Some disk) ∧
    FlattenVirtualMachineScaleSetOSDisk (Some disk) = [VMap out] ∧
    out !! "caching" = raw !! "caching" ∧
    out !! "storage_account_type" = raw !! "storage_account_type" ∧
    out !! "disk_size_gb" = raw !! "disk_size_gb" ∧
    out !! "write_accelerator_enabled" = raw !! "write_accelerator_enabled" ∧
    out !! "diff_data_settings" = raw !! "diff_disk_settings" ∧
    is_Some (raw !! "diff_disk_settings") ∧
    out !! "diff_disk_settings" = None.
Proof.
  intros Hraw.
  destruct (expand_os_disk_conforming raw osType Hraw)
    as (caching & sat & diff & size & wae & disk
        & Hc & Hs & Hd & Hz & Hw & _ & Hexp & _ & Hflat).
  exists disk. eexists. split; [exact Hexp|]. split; [exact Hflat|].
  rewrite Hc, Hs, Hd, Hz, Hw. split_and!; by eexists.
Qed.

Lemma os_disk_round_trip_key_witness :
  ∃ disk out,
    ExpandVirtualMachineScaleSetOSDisk [VMap os_disk_node] compute.Linux
    = Returns (Some disk) ∧
    FlattenVirtualMachineScaleSetOSDisk (Some disk) = [VMap out] ∧
    out !! "caching" = os_disk_node !! "caching" ∧
    out !! "storage_account_type" = os_disk_node !! "storage_account_type" ∧
    out !! "disk_size_gb" = os_disk_node !! "disk_size_gb" ∧
    out !! "write_accelerator_enabled" = os_disk_node !! "write_accelerator_enabled" ∧
    out !! "diff_data_settings" = os_disk_node !! "diff_disk_settings" ∧
    is_Some (os_disk_node !! "diff_disk_settings") ∧
    out !! "diff_disk_settings" = None.
Proof.
  apply (os_disk_round_trip_key os_disk_node compute.Linux).
  vm_compute. reflexivity.
Defined.

(** The same on the sample node, by running the two functions. *)
Lemma os_disk_round_trip_sample :
  match ExpandVirtualMachineScaleSetOSDisk [VMap os_disk_node] compute.Linux with
  | Returns disk =>
      field (FlattenVirtualMachineScaleSetOSDisk disk) "diff_disk_settings" = None ∧
      field (FlattenVirtualMachineScaleSetOSDisk disk) "diff_data_settings"
      = Some (VList [VMap {[ "option" := VString "Local" ]}])
  | Panics _ => False
  end ∧
  field [VMap os_disk_node] "diff_disk_settings"
  = Some (VList [VMap {[ "option" := VString "Local" ]}]).
Proof. vm_compute. repeat split. Qed.

(** On the node with every optional setting left out, the flattened node is
    the input with the nested list moved to the other key. *)
Lemma os_disk_round_trip_minimal :
  match ExpandVirtualMachineScaleSetOSDisk [VMap os_disk_node_minimal] compute.Windows with
  | Returns disk =>
      FlattenVirtualMachineScaleSetOSDisk disk
      = [VMap (<["diff_data_settings" := VList []]>
                 (delete "diff_disk_settings" os_disk_node_minimal))]
  | Panics _ => False
  end.
Proof. vm_compute. reflexivity. Qed.

(** * Further properties

    Properties of the same functions beyond the ones above: round trips,
    what the expand functions do on conforming input and what they never
    return, and how expanding and flattening compose. *)

(** ** Tools *)

(** Two maps with the same keys that agree on the keys of the first are
    equal. *)
Lemma map_eq_on_dom (m1 m2 : gmap string value) :
  dom m1 = dom m2 →
  (∀ k v, m1 !! k = Some v → m2 !! k = Some v) →
  m1 = m2.
Proof.
  intros Hdom Hagree. apply map_eq. intros k.
  destruct (m1 !! k) as [v|] eqn:Hk.
  - symmetry. by apply Hagree.
  - symmetry. apply not_elem_of_dom. rewrite <- Hdom. by apply not_elem_of_dom.
Qed.

(** Splits a lookup in a literal map on the key it hits. *)
Ltac literal_lookup :=
  repeat match goal with
  | H : <[?i := _]> _ !! ?k = Some _ |- _ =>
      destruct (decide (i = k)) as [<-|];
        [rewrite lookup_insert_eq in H; injection H as <-; try done
        |rewrite lookup_insert_ne in H by done]
  | H : {[?i := _]} !! ?k = Some _ |- _ =>
      apply lookup_singleton_Some in H as [<- <-]; try done
  end.

(** Equality of sets of keys, and of a literal block with a map that has
    the same keys and values. *)
Ltac dom_eq :=
  repeat match goal with Hd : dom _ = _ |- _ => rewrite Hd; clear Hd end;
  set_solver.

Ltac block_eq :=
  apply map_eq_on_dom; [dom_eq | intros ? ? ?; literal_lookup].

(** Evaluates the reads of a map whose keys are known. *)
Ltac at_key_eval :=
  match goal with
  | |- context [at_key ?m ?k] =>
      tryif is_var m then fail else
      let r := eval vm_compute in (at_key m k) in
      change (at_key m k) with r
  end.

(** [flow_exec] for a body that reads maps with known keys. *)
Ltac flow_run := simpl; repeat (first [at_key_eval | flow_step]; simpl).

Lemma int32_fixed_iff n : int32 n = n ↔ fits_int32 n.
Proof.
  unfold int32, fits_int32. split; [|intros ?; rewrite Z.mod_small; lia].
  intros H. pose proof (Z.mod_pos_bound (n + 2 ^ 31) (2 ^ 32)). lia.
Qed.

Lemma int32_fits n : fits_int32 (int32 n).
Proof.
  unfold int32, fits_int32.
  pose proof (Z.mod_pos_bound (n + 2 ^ 31) (2 ^ 32)). lia.
Qed.

(** ** Round trips: expand, then flatten *)

(** X1. On every input that conforms to the source-image-reference schema,
    the empty list included, expanding and then flattening gives the input
    back. *)
Theorem source_image_reference_round_trip input :
  schema.conforms VirtualMachineScaleSetSourceImageReferenceSchema (VList input) = true →
  ∃ reference,
    ExpandVirtualMachineScaleSetSourceImageReference input = Returns reference ∧
    FlattenVirtualMachineScaleSetSourceImageReference reference = input.
Proof.
  unfold VirtualMachineScaleSetSourceImageReferenceSchema. simpl. intros H.
  conforms_inv.
  - by eexists.
  - unfold ExpandVirtualMachineScaleSetSourceImageReference. flow_exec.
    eexists. split; [done|]. simpl. do 2 f_equal.
    apply map_eq_on_dom.
    + match goal with Hd : dom _ = _ |- _ => rewrite Hd end. set_solver.
    + intros k w Hk. literal_lookup.
Qed.

Lemma source_image_reference_round_trip_witness :
  ∃ reference,
    ExpandVirtualMachineScaleSetSourceImageReference [VMap image_node]
    = Returns reference ∧
    FlattenVirtualMachineScaleSetSourceImageReference reference = [VMap image_node].
Proof.
  apply (source_image_reference_round_trip [VMap image_node]).
  vm_compute. reflexivity.
Defined.

(** X2. A one-element input that conforms to the additional-capabilities
    schema expands to a present object that flattens back to the input. *)
Theorem additional_capabilities_round_trip raw :
  schema.conforms VirtualMachineScaleSetAdditionalCapabilitiesSchema
    (VList [VMap raw]) = true →
  ∃ capabilities,
    ExpandVirtualMachineScaleSetAdditionalCapabilities [VMap raw]
    = Returns (Some capabilities) ∧
    FlattenVirtualMachineScaleSetAdditionalCapabilities (Some capabilities)
    = [VMap raw].
Proof.
  unfold VirtualMachineScaleSetAdditionalCapabilitiesSchema. simpl. intros H.
  conforms_inv.
  unfold ExpandVirtualMachineScaleSetAdditionalCapabilities. flow_exec.
  eexists. split; [done|]. simpl. do 2 f_equal.
  apply map_eq_on_dom.
  - match goal with Hd : dom _ = _ |- _ => rewrite Hd end. set_solver.
  - intros k w Hk. literal_lookup.
Qed.

Lemma additional_capabilities_round_trip_witness :
  ∃ capabilities,
    ExpandVirtualMachineScaleSetAdditionalCapabilities [VMap capabilities_node]
    = Returns (Some capabilities) ∧
    FlattenVirtualMachineScaleSetAdditionalCapabilities (Some capabilities)
    = [VMap capabilities_node].
Proof.
  apply (additional_capabilities_round_trip capabilities_node).
  vm_compute. reflexivity.
Defined.

(** X3. When a schema-conforming upgrade-policy node is accepted and the
    percentages of its rolling block fit in an [int32], flattening the
    returned policy gives the node back. *)
Theorem upgrade_policy_round_trip raw policy :
  schema.conforms VirtualMachineScaleSetUpgradePolicySchema (VList [VMap raw]) = true →
  ExpandVirtualMachineScaleSetUpgradePolicy [VMap raw] = Returns (Some policy, None) →
  (∀ block k n,
     raw !! "rolling_upgrade_policy" = Some (VList [VMap block]) →
     block !! k = Some (VInt n) → fits_int32 n) →
  FlattenVirtualMachineScaleSetUpgradePolicy (Some policy) = [VMap raw].
Proof.
  unfold VirtualMachineScaleSetUpgradePolicySchema. simpl. intros H Hrun Hfit.
  conforms_inv.
  all: revert Hrun; unfold ExpandVirtualMachineScaleSetUpgradePolicy.
  all: flow_exec; intros [= <-].
  all: simpl; do 2 f_equal.
  all: unfold int;
       try rewrite !(proj2 (int32_fixed_iff _)) by (eapply Hfit; [reflexivity|eassumption]).
  all: apply map_eq_on_dom; [dom_eq | intros ? ? ?; literal_lookup].
  all: match goal with Hk : ?m !! ?k = Some _ |- ?m !! ?k = _ => rewrite Hk end.
  all: repeat f_equal; symmetry; block_eq.
Qed.

Lemma upgrade_policy_round_trip_witness :
  FlattenVirtualMachineScaleSetUpgradePolicy (Some rolling_policy) = [VMap rolling_node].
Proof.
  apply upgrade_policy_round_trip.
  - vm_compute. reflexivity.
  - vm_compute. reflexivity.
  - intros block k n Hb Hk.
    change (rolling_node !! "rolling_upgrade_policy")
      with (Some (VList [rolling_block])) in Hb.
    injection Hb as <-. unfold fits_int32.
    repeat (apply lookup_insert_Some in Hk as [[_ Hk]|[_ Hk]];
            [injection Hk as <-; lia|]).
    apply lookup_singleton_Some in Hk as [_ Hk]. discriminate Hk.
Defined.

(** X4. The three percentages of the rolling block are converted with
    [int32(...)] and no range check: the returned policy holds the wrapped
    value, which is the configured one exactly when that fits in 32 bits. *)
Theorem expand_upgrade_policy_percentages raw policy block rest a b c :
  ExpandVirtualMachineScaleSetUpgradePolicy [VMap raw] = Returns (Some policy, None) →
  raw !! "rolling_upgrade_policy" = Some (VList (VMap block :: rest)) →
  block !! "max_batch_instance_percent" = Some (VInt a) →
  block !! "max_unhealthy_instance_percent" = Some (VInt b) →
  block !! "max_unhealthy_upgraded_instance_percent" = Some (VInt c) →
  ∃ rolling,
    compute.RollingUpgradePolicy' policy = Some rolling ∧
    compute.MaxBatchInstancePercent rolling = Some (int32 a) ∧
    compute.MaxUnhealthyInstancePercent rolling = Some (int32 b) ∧
    compute.MaxUnhealthyUpgradedInstancePercent rolling = Some (int32 c) ∧
    (compute.MaxBatchInstancePercent rolling = Some a ↔ fits_int32 a) ∧
    (compute.MaxUnhealthyInstancePercent rolling = Some b ↔ fits_int32 b) ∧
    (compute.MaxUnhealthyUpgradedInstancePercent rolling = Some c ↔ fits_int32 c).
Proof.
  intros Hrun Hr Ha Hb Hc. revert Hrun.
  unfold ExpandVirtualMachineScaleSetUpgradePolicy.
  flow_exec; intros [= <-]; simpl.
  all: eexists; split_and!; try reflexivity.
  all: rewrite <- int32_fixed_iff; unfold utils.Int32.
  all: simpl; split; congruence.
Qed.

Lemma expand_upgrade_policy_percentages_witness :
  ∃ rolling,
    compute.RollingUpgradePolicy' wide_rolling_policy = Some rolling ∧
    compute.MaxBatchInstancePercent rolling = Some (int32 4294967316) ∧
    compute.MaxUnhealthyInstancePercent rolling = Some (int32 20) ∧
    compute.MaxUnhealthyUpgradedInstancePercent rolling = Some (int32 5) ∧
    (compute.MaxBatchInstancePercent rolling = Some 4294967316
       ↔ fits_int32 4294967316) ∧
    (compute.MaxUnhealthyInstancePercent rolling = Some 20 ↔ fits_int32 20) ∧
    (compute.MaxUnhealthyUpgradedInstancePercent rolling = Some 5 ↔ fits_int32 5).
Proof.
  apply (expand_upgrade_policy_percentages wide_rolling_node wide_rolling_policy
           wide_rolling_block []).
  all: vm_compute; reflexivity.
Defined.

(** The wide percentage comes back as 20: the node is accepted, and the
    round trip changes it. *)
Lemma wide_percentage_wraps :
  schema.conforms VirtualMachineScaleSetUpgradePolicySchema
    (VList [VMap wide_rolling_node]) = true ∧
  ExpandVirtualMachineScaleSetUpgradePolicy [VMap wide_rolling_node]
    = Returns (Some wide_rolling_policy, None) ∧
  FlattenVirtualMachineScaleSetUpgradePolicy (Some wide_rolling_policy)
    = [VMap rolling_node].
Proof. repeat split; vm_compute; reflexivity. Qed.

(** ** What the expand functions return *)

(** X5. No expand function panics on an input that conforms to its schema:
    the type assertions succeed, and for the two required blocks the schema
    admits only one-element lists, so the unguarded read of the first
    element is within bounds. *)
Theorem expand_total_on_conforming_input :
  (∀ input,
     schema.conforms VirtualMachineScaleSetAdditionalCapabilitiesSchema (VList input) = true →
     ∃ capabilities,
       ExpandVirtualMachineScaleSetAdditionalCapabilities input
       = Returns (Some capabilities)) ∧
  (∀ input osType,
     schema.conforms VirtualMachineScaleSetOSDiskSchema (VList input) = true →
     ∃ disk, ExpandVirtualMachineScaleSetOSDisk input osType = Returns (Some disk)) ∧
  (∀ input,
     schema.conforms VirtualMachineScaleSetSourceImageReferenceSchema (VList input) = true →
     ∃ reference,
       ExpandVirtualMachineScaleSetSourceImageReference input = Returns reference) ∧
  (∀ input,
     schema.conforms VirtualMachineScaleSetUpgradePolicySchema (VList input) = true →
     ∃ policy err,
       ExpandVirtualMachineScaleSetUpgradePolicy input = Returns (policy, err)).
Proof.
  split_and!.
  - intros input. unfold VirtualMachineScaleSetAdditionalCapabilitiesSchema.
    simpl. intros H. conforms_inv.
    all: unfold ExpandVirtualMachineScaleSetAdditionalCapabilities; flow_exec; eauto.
  - intros input osType Hok.
    assert (∃ raw, input = [VMap raw]) as [raw ->].
    { revert Hok. unfold VirtualMachineScaleSetOSDiskSchema. simpl.
      intros H. conforms_inv; eauto. }
    destruct (expand_os_disk_conforming raw osType Hok)
      as (? & ? & ? & ? & ? & disk & H); destruct_and!; eauto.
  - intros input Hok.
    revert Hok. unfold VirtualMachineScaleSetSourceImageReferenceSchema.
    simpl. intros H. conforms_inv.
    all: unfold ExpandVirtualMachineScaleSetSourceImageReference; flow_exec; eauto.
  - intros input Hok.
    assert (∃ raw, input = [VMap raw]) as [raw ->].
    { revert Hok. unfold VirtualMachineScaleSetUpgradePolicySchema. simpl.
      intros H. conforms_inv; eauto. }
    destruct (expand_upgrade_policy_first_violated raw Hok)
      as (mode & automatic & rolling & _ & _ & _ & Hres).
    destruct (first_violated mode automatic rolling); [eauto|].
    destruct Hres as [policy ->]. eauto.
Qed.

Lemma expand_total_on_conforming_input_witness :
  ∃ disk,
    ExpandVirtualMachineScaleSetOSDisk [VMap os_disk_node] compute.Linux
    = Returns (Some disk).
Proof.
  apply (proj1 (proj2 expand_total_on_conforming_input) [VMap os_disk_node]).
  vm_compute. reflexivity.
Defined.

(** X6. Whenever [ExpandVirtualMachineScaleSetOSDisk] returns, it returns a
    disk (never nil) whose create option is FromImage, whose OS type is the
    argument, and whose managed-disk parameters and write-accelerator flag
    are set. *)
Theorem expand_os_disk_fixed_fields input osType r :
  ExpandVirtualMachineScaleSetOSDisk input osType = Returns r →
  ∃ disk, r = Some disk ∧
    compute.CreateOption disk = compute.DiskCreateOptionTypesFromImage ∧
    compute.OsType disk = osType ∧
    is_Some (compute.ManagedDisk disk) ∧
    is_Some (compute.WriteAcceleratorEnabled disk).
Proof.
  unfold ExpandVirtualMachineScaleSetOSDisk.
  flow_exec; intros [= <-]; eexists; (split; [done|]);
    case_bool_decide; simpl; split_and!; by eexists.
Qed.

Lemma expand_os_disk_fixed_fields_witness :
  ∃ disk, Some minimal_disk = Some disk ∧
    compute.CreateOption disk = compute.DiskCreateOptionTypesFromImage ∧
    compute.OsType disk = compute.Windows ∧
    is_Some (compute.ManagedDisk disk) ∧
    is_Some (compute.WriteAcceleratorEnabled disk).
Proof.
  apply (expand_os_disk_fixed_fields [VMap os_disk_node_minimal] compute.Windows).
  vm_compute. reflexivity.
Defined.

(** X15. Whenever [ExpandVirtualMachineScaleSetOSDisk] returns on a
    one-element input, the disk carries the node's caching, storage account
    type and write-accelerator flag, and has diff-disk settings exactly when
    the [diff_disk_settings] list is not empty, with the option of its first
    block. *)
Theorem expand_os_disk_fields raw osType disk :
  ExpandVirtualMachineScaleSetOSDisk [VMap raw] osType = Returns (Some disk) →
  ∃ caching storageAccountType writeAccelerator diff,
    raw !! "caching" = Some (VString caching) ∧
    raw !! "storage_account_type" = Some (VString storageAccountType) ∧
    raw !! "write_accelerator_enabled" = Some (VBool writeAccelerator) ∧
    raw !! "diff_disk_settings" = Some (VList diff) ∧
    compute.Caching disk = caching ∧
    compute.ManagedDisk disk
      = Some {| compute.StorageAccountType := storageAccountType |} ∧
    compute.WriteAcceleratorEnabled disk = Some writeAccelerator ∧
    (compute.DiffDiskSettings' disk = None ↔ diff = []) ∧
    (∀ block rest, diff = VMap block :: rest →
       ∃ option,
         block !! "option" = Some (VString option) ∧
         compute.DiffDiskSettings' disk = Some {| compute.Option := option |}).
Proof.
  unfold ExpandVirtualMachineScaleSetOSDisk.
  flow_exec; intros [= <-].
  all: repeat match goal with
       | H : at_key _ _ = _ |- _ => apply at_key_inv in H; [|done]
       end.
  all: do 4 eexists; split_and!; try eassumption.
  all: case_bool_decide; simpl; try done.
  all: try (intros ? ? [= <- <-]; eexists; split; [eassumption|reflexivity]).
Qed.

Lemma expand_os_disk_fields_witness :
  ∃ caching storageAccountType writeAccelerator diff,
    os_disk_node_minimal !! "caching" = Some (VString caching) ∧
    os_disk_node_minimal !! "storage_account_type" = Some (VString storageAccountType) ∧
    os_disk_node_minimal !! "write_accelerator_enabled" = Some (VBool writeAccelerator) ∧
    os_disk_node_minimal !! "diff_disk_settings" = Some (VList diff) ∧
    compute.Caching minimal_disk = caching ∧
    compute.ManagedDisk minimal_disk
      = Some {| compute.StorageAccountType := storageAccountType |} ∧
    compute.WriteAcceleratorEnabled minimal_disk = Some writeAccelerator ∧
    (compute.DiffDiskSettings' minimal_disk = None ↔ diff = []) ∧
    (∀ block rest, diff = VMap block :: rest →
       ∃ option,
         block !! "option" = Some (VString option) ∧
         compute.DiffDiskSettings' minimal_disk = Some {| compute.Option := option |}).
Proof.
  apply (expand_os_disk_fields os_disk_node_minimal compute.Windows).
  vm_compute. reflexivity.
Defined.

(** X7. Whenever [ExpandVirtualMachineScaleSetSourceImageReference]
    returns, the result is nil exactly for the empty list; a reference it
    builds has no [ID] and has all four of publisher, offer, sku and version
    set. *)
Theorem expand_source_image_reference_shape input r :
  ExpandVirtualMachineScaleSetSourceImageReference input = Returns r →
  (r = None ↔ input = []) ∧
  ∀ reference, r = Some reference →
    compute.ID reference = None ∧
    is_Some (compute.Publisher reference) ∧
    is_Some (compute.Offer reference) ∧
    is_Some (compute.Sku reference) ∧
    is_Some (compute.Version reference).
Proof.
  unfold ExpandVirtualMachineScaleSetSourceImageReference.
  flow_exec; intros [= <-]; try done.
  split; [done|]. intros ? [= <-]. simpl. split_and!; by eexists.
Qed.

Lemma expand_source_image_reference_shape_witness :
  (Some {| compute.ID := None;
           compute.Publisher := Some "Canonical";
           compute.Offer := Some "UbuntuServer";
           compute.Sku := Some "16.04-LTS";
           compute.Version := Some "latest" |} = None
     ↔ [VMap image_node] = []) ∧
  ∀ reference,
    Some {| compute.ID := None;
            compute.Publisher := Some "Canonical";
            compute.Offer := Some "UbuntuServer";
            compute.Sku := Some "16.04-LTS";
            compute.Version := Some "latest" |} = Some reference →
    compute.ID reference = None ∧
    is_Some (compute.Publisher reference) ∧
    is_Some (compute.Offer reference) ∧
    is_Some (compute.Sku reference) ∧
    is_Some (compute.Version reference).
Proof.
  apply (expand_source_image_reference_shape [VMap image_node]).
  vm_compute. reflexivity.
Defined.

(** X8. The capabilities object that
    [ExpandVirtualMachineScaleSetAdditionalCapabilities] returns has its flag
    unset exactly for the empty list; otherwise the flag is the
    [ultra_ssd_enabled] of the first block. *)
Theorem expand_additional_capabilities_flag input capabilities :
  ExpandVirtualMachineScaleSetAdditionalCapabilities input
  = Returns (Some capabilities) →
  (compute.UltraSSDEnabled capabilities = None ↔ input = []) ∧
  ∀ raw rest b, input = VMap raw :: rest →
    compute.UltraSSDEnabled capabilities = Some b →
    raw !! "ultra_ssd_enabled" = Some (VBool b).
Proof.
  unfold ExpandVirtualMachineScaleSetAdditionalCapabilities.
  flow_exec; intros [= <-]; simpl; try done.
  split; [done|]. intros ? ? ? [= <- <-] [= <-]. by apply at_key_inv.
Qed.

Lemma expand_additional_capabilities_flag_witness :
  (compute.UltraSSDEnabled {| compute.UltraSSDEnabled := Some true |} = None
     ↔ [VMap capabilities_node] = []) ∧
  ∀ raw rest b, [VMap capabilities_node] = VMap raw :: rest →
    compute.UltraSSDEnabled {| compute.UltraSSDEnabled := Some true |} = Some b →
    raw !! "ultra_ssd_enabled" = Some (VBool b).
Proof.
  apply (expand_additional_capabilities_flag [VMap capabilities_node]).
  vm_compute. reflexivity.
Defined.

(** X14. An automatic block under a mode other than Automatic is refused
    before the block is read: the first message is returned whatever the
    items of the list hold, even a nil item. *)
Theorem expand_upgrade_policy_checks_mode_first raw mode item items rolling :
  raw !! "mode" = Some (VString mode) →
  raw !! "automatic_os_upgrade_policy" = Some (VList (item :: items)) →
  raw !! "rolling_upgrade_policy" = Some (VList rolling) →
  mode ≠ compute.Automatic →
  ExpandVirtualMachineScaleSetUpgradePolicy [VMap raw]
  = Returns (None, Some ErrAutomaticBlockWithoutMode).
Proof.
  intros Hm Ha Hr Hmode. unfold ExpandVirtualMachineScaleSetUpgradePolicy.
  by flow_exec.
Qed.

Lemma expand_upgrade_policy_checks_mode_first_witness :
  ExpandVirtualMachineScaleSetUpgradePolicy
    [VMap (upgrade_node compute.Rolling [VNil] [rolling_block])]
  = Returns (None, Some ErrAutomaticBlockWithoutMode).
Proof.
  apply (expand_upgrade_policy_checks_mode_first _ compute.Rolling VNil []
           [rolling_block]).
  - vm_compute. reflexivity.
  - vm_compute. reflexivity.
  - vm_compute. reflexivity.
  - discriminate.
Defined.

(** ** What the flatten functions write, and expanding it again *)

(** X9. What the flatten functions of the additional capabilities and of
    the source image reference write always conforms to their schema; what
    the upgrade-policy one writes for a present policy conforms exactly when
    the mode is one of Automatic, Manual and Rolling. *)
Theorem flatten_conforms :
  (∀ input,
     schema.conforms VirtualMachineScaleSetAdditionalCapabilitiesSchema
       (VList (FlattenVirtualMachineScaleSetAdditionalCapabilities input)) = true) ∧
  (∀ input,
     schema.conforms VirtualMachineScaleSetSourceImageReferenceSchema
       (VList (FlattenVirtualMachineScaleSetSourceImageReference input)) = true) ∧
  (∀ input,
     schema.conforms VirtualMachineScaleSetUpgradePolicySchema
       (VList (FlattenVirtualMachineScaleSetUpgradePolicy (Some input))) = true
     ↔ compute.Mode input ∈ [compute.Automatic; compute.Manual; compute.Rolling]).
Proof.
  split_and!.
  - intros [[[b|]]|]; vm_compute; reflexivity.
  - intros [[[id|] [p|] [o|] [s|] [v|]]|]; vm_compute; reflexivity.
  - intros [mode automatic rolling]. simpl.
    destruct (decide (mode ∈ [compute.Automatic; compute.Manual; compute.Rolling]))
      as [Hin|Hout].
    + split; [done|intros _].
      destruct automatic as [[[|] [|]]|], rolling as [[[|] [|] [|] [|]]|].
      all: repeat (apply elem_of_cons in Hin as [->|Hin]; [vm_compute; reflexivity|]).
      all: by apply elem_of_nil in Hin.
    + split; [|done]. intros Hok. exfalso. revert Hok.
      unfold VirtualMachineScaleSetUpgradePolicySchema. simpl.
      rewrite lookup_insert_eq. unfold validation.StringInSlice.
      rewrite (bool_decide_eq_false_2 _ Hout). simpl.
      rewrite andb_false_r. simpl. discriminate.
Qed.

(** X10. Flattening is stable for the source image reference and the
    additional capabilities: the expand function accepts what the flatten
    function wrote, and flattening the result gives the same node again. *)
Theorem flatten_expand_flatten :
  (∀ input,
     match ExpandVirtualMachineScaleSetSourceImageReference
             (FlattenVirtualMachineScaleSetSourceImageReference input) with
     | Returns reference =>
         FlattenVirtualMachineScaleSetSourceImageReference reference
         = FlattenVirtualMachineScaleSetSourceImageReference input
     | Panics _ => False
     end) ∧
  (∀ input,
     match ExpandVirtualMachineScaleSetAdditionalCapabilities
             (FlattenVirtualMachineScaleSetAdditionalCapabilities (Some input)) with
     | Returns capabilities =>
         FlattenVirtualMachineScaleSetAdditionalCapabilities capabilities
         = FlattenVirtualMachineScaleSetAdditionalCapabilities (Some input)
     | Panics _ => False
     end).
Proof.
  split.
  - intros [[[id|] [p|] [o|] [s|] [v|]]|]; vm_compute; reflexivity.
  - intros [[b|]]; vm_compute; reflexivity.
Qed.

(** X11. Expanding the node flattened from a provider policy never panics,
    and it succeeds exactly when the policy has its automatic sub-policy
    together with mode Automatic and its rolling sub-policy together with
    mode Rolling: a policy read back with a sub-policy that does not match
    its mode is refused. *)
Theorem expand_flattened_upgrade_policy input :
  (∃ result,
     ExpandVirtualMachineScaleSetUpgradePolicy
       (FlattenVirtualMachineScaleSetUpgradePolicy (Some input)) = Returns result) ∧
  ((∃ policy,
      ExpandVirtualMachineScaleSetUpgradePolicy
        (FlattenVirtualMachineScaleSetUpgradePolicy (Some input))
      = Returns (Some policy, None))
   ↔ (is_Some (compute.AutomaticOSUpgradePolicy' input)
        ↔ compute.Mode input = compute.Automatic) ∧
     (is_Some (compute.RollingUpgradePolicy' input)
        ↔ compute.Mode input = compute.Rolling)).
Proof.
  destruct input as [mode automatic rolling]. 
  destruct automatic as [a|], rolling as [r|].
  all: unfold ExpandVirtualMachineScaleSetUpgradePolicy; flow_run.
  all: split; [eexists; reflexivity|].
  all: split; [intros [policy Hp]; try discriminate Hp
              |intros [[Ha1 Ha2] [Hr1 Hr2]]].
  all: try (eexists; reflexivity).
  all: try (split; split; first [by intros [? [=]] | solve [intros; eexists; reflexivity]
                                 | intros; try done; exfalso; cond_solve]).
  all: repeat match goal with
       | H : is_Some (Some ?x) → _ |- _ => specialize (H (ex_intro _ x eq_refl))
       end.
  all: try (exfalso; cond_solve).
  all: exfalso; subst;
       repeat match goal with
       | H : ?x = ?x → _ |- _ => specialize (H eq_refl)
       | H : is_Some None |- _ => destruct (is_Some_None H)
       end; done.
Qed.

(** X12. What [FlattenVirtualMachineScaleSetOSDisk] writes is never
    accepted back: it does not conform to the OS-disk schema, and
    [ExpandVirtualMachineScaleSetOSDisk] panics on it, on the missing
    [diff_disk_settings] key for a present disk and on the empty list for an
    absent one. *)
Theorem expand_flattened_os_disk input osType :
  ExpandVirtualMachineScaleSetOSDisk (FlattenVirtualMachineScaleSetOSDisk input) osType
  = Panics (if input is Some _ then InterfaceConversion else IndexOutOfRange) ∧
  schema.conforms VirtualMachineScaleSetOSDiskSchema
    (VList (FlattenVirtualMachineScaleSetOSDisk input)) = false.
Proof.
  destruct input as [[caching [w|] create [diff|] [size|] os [managed|]]|].
  all: split; [|vm_compute; reflexivity].
  all: unfold ExpandVirtualMachineScaleSetOSDisk; by flow_run.
Qed.

(** ** The result of the identifier parser *)

Section ParseIDResult.
Context {ResourceID : Type}.
Variable Path : ResourceID → gmap string string.
Variable ParseAzureResourceID : string → option ResourceID * option error.

(** X13. Whatever the helper is, the identifier parser returns either an
    identifier or an error, never both and never neither; it panics exactly
    when the helper returns neither a result nor an error. *)
Theorem parse_resource_id_result input :
  (∀ id err,
     ParseVirtualMachineScaleSetResourceID ResourceID Path ParseAzureResourceID input
     = Returns (id, err) →
     (is_Some id ↔ err = None)) ∧
  (∀ p,
     ParseVirtualMachineScaleSetResourceID ResourceID Path ParseAzureResourceID input
     = Panics p ↔
     p = NilDereference ∧ ParseAzureResourceID input = (None, None)).
Proof.
  unfold ParseVirtualMachineScaleSetResourceID.
  destruct (ParseAzureResourceID input) as [[base|] [e|]]; simpl.
  all: try case_bool_decide; simpl; split.
  all: try (intros id err Hrun; try discriminate Hrun; injection Hrun as <- <-;
            split; first [by intros [? [=]] | by intros [=] | done | by eexists]).
  all: intros p; split;
         [intros Hrun; try discriminate Hrun; by injection Hrun as <-
         |intros [-> Hrun]; try discriminate Hrun; done].
Qed.
End ParseIDResult.

Lemma parse_resource_id_result_witness :
  is_Some (Some {| Base := my_scale_set_base; Name := "myScaleSet" |})
  ↔ @None error = None.
Proof.
  apply (proj1 (parse_resource_id_result azure.Path azure.ParseAzureResourceID
                  my_scale_set_id)).
  vm_compute. reflexivity.
Defined.
